(** * Product catalog service: a shallow embedding of [service/routes.py]

    The request handlers of [service/routes.py] are embedded as state-passing
    functions over an explicit store.  The entity and repository layer
    ([service/models.py]), the status constants and the application's error
    handlers are the handlers' collaborators; each of them carries a comment
    saying where its definition comes from. *)

From stdpp Require Import base option list strings gmap fin_maps.
From Stdlib Require Import ZArith DecimalString DecimalZ.

#[local] Set Warnings "-register-all".
#[local] Open Scope Z_scope.

(** ** JSON values

    The decoded bodies Flask hands to a handler ([request.get_json()]) and the
    values [jsonify] encodes.  A JSON object is a Python [dict]: equality of
    dicts ignores insertion order, as equality of [gmap] does. *)
Inductive json :=
| JNull
| JBool (b : bool)
| JInt (n : Z)
| JStr (s : string)
| JArr (l : list json)
| JObj (d : gmap string json).

(** [isinstance(v, bool)]: only [True] and [False] are genuine booleans. *)
Definition as_bool (v : json) : option bool :=
  match v with JBool b => Some b | _ => None end.

Definition as_str (v : json) : option string :=
  match v with JStr s => Some s | _ => None end.

(** ** HTTP status codes ([service.common.status]) *)
Module status.
(** Modelled from the spec: the constants of [service/common/status.py],
    which is not among the sources; each name carries its code, and section 6 of
    the spec lists the codes in use. *)
Definition HTTP_200_OK : Z := 200.
Definition HTTP_201_CREATED : Z := 201.
Definition HTTP_204_NO_CONTENT : Z := 204.
Definition HTTP_400_BAD_REQUEST : Z := 400.
Definition HTTP_404_NOT_FOUND : Z := 404.
Definition HTTP_415_UNSUPPORTED_MEDIA_TYPE : Z := 415.
Definition HTTP_500_INTERNAL_SERVER_ERROR : Z := 500.
End status.

(** ** The value types of the entity

    [decimal.Decimal] is a library type and the [Category] enumeration is
    declared in [service/models.py]; the development is generic in both and
    uses them through the two interfaces below. *)

(** Exact decimals: the constructor [Decimal(v)], the rendering [str(d)], and
    the law that a rendering reads back as the same number. *)
Class DecimalType (Decimal : Type) := {
  Decimal_new : json → Decimal;
  Decimal_str : Decimal → string;
  Decimal_new_str : ∀ d, Decimal_new (JStr (Decimal_str d)) = d
}.

(** Modelled from the spec: the [Category] enumeration of
    [service/models.py], which is not among the sources.  A closed set of named
    members: [Category_name c] is [c.name], [Category_lookup s] resolves a
    string against the enumeration, and a member's name resolves to it. *)
Class CategoryEnum (Category : Type) := {
  Category_eq_dec :: EqDecision Category;
  Category_name : Category → string;
  Category_lookup : string → option Category;
  Category_lookup_name : ∀ c, Category_lookup (Category_name c) = Some c
}.

(** ** Validation errors *)

(** Modelled from the spec: [DataValidationError] of [service/models.py],
    which is not among the sources.  Section 7 of the spec describes a validation
    error by kind and field. *)
Inductive DataValidationError :=
| NotAMapping
| MissingKey (key : string)
| InvalidBoolean (key : string)
| InvalidCategory (value : json)
| UpdateWithEmptyId.

(** Results of the entity layer: a value, or a raised [DataValidationError]. *)
Inductive result (A : Type) :=
| Ok (a : A)
| Raised (e : DataValidationError).
Arguments Ok {A} a.
Arguments Raised {A} e.

#[export] Instance result_ret : MRet result := λ A a, Ok a.
#[export] Instance result_bind : MBind result := λ A B f m,
  match m with Ok a => f a | Raised e => Raised e end.

Definition fails {A} (r : result A) : Prop := ∃ e, r = Raised e.

(** [data[key]], where a missing key is a validation error. *)
Definition required (key : string) (data : gmap string json) : result json :=
  match data !! key with
  | Some v => Ok v
  | None => Raised (MissingKey key)
  end.

(** ** The Product entity and its repository ([service.models.Product])

    [service/models.py] is not among the sources: the entity, its (de)serialisation
    and the repository operations follow sections 3 and 4.1 of the spec. *)
Module Product.
Section entity.
Context {Decimal Category : Type} `{!DecimalType Decimal, !CategoryEnum Category}.

(** Modelled from the spec: the Product entity (section 3).  [id] is absent
    until the store assigns it.  The attributes hold what was assigned to
    them: [name] and [description] take the payload's values as they are,
    [JNull] standing for Python's [None] on an entity built by [Product()]. *)
Record t := mk {
  id : option Z;
  name : json;
  description : json;
  price : option Decimal;
  available : option bool;
  category : option Category
}.

(** [Product()]: an entity with nothing assigned yet. *)
Definition new : t :=
  {| id := None; name := JNull; description := JNull;
     price := None; available := None; category := None |}.

Definition json_of_option {A} (f : A → json) (o : option A) : json :=
  match o with Some a => f a | None => JNull end.

(** Modelled from the spec: [serialize] (section 4.1 and the resource
    representation of section 6): price as its decimal string, category as
    its name, available as a boolean. *)
Definition serialize (self : t) : json :=
  JObj (<["id" := json_of_option JInt (id self)]>
       (<["name" := name self]>
       (<["description" := description self]>
       (<["price" := json_of_option (λ d, JStr (Decimal_str d)) (price self)]>
       (<["available" := json_of_option JBool (available self)]>
       (<["category" := json_of_option (λ c, JStr (Category_name c)) (category self)]>
        ∅)))))).

(** The enumeration member a payload value names, if any. *)
Definition category_of (v : json) : option Category :=
  s ← as_str v; Category_lookup s.

Definition genuine_bool (key : string) (v : json) : result bool :=
  match as_bool v with
  | Some b => Ok b
  | None => Raised (InvalidBoolean key)
  end.

Definition enum_member (v : json) : result Category :=
  match category_of v with
  | Some c => Ok c
  | None => Raised (InvalidCategory v)
  end.

(** Modelled from the spec: [deserialize] (section 4.1).  The four required
    keys are read from the mapping, [available] must be a genuine boolean and
    [category] must name a member of the enumeration; [description] is
    optional and [id] is never read.  The entity is mutated in place: what the
    payload does not supply keeps its value. *)
Definition deserialize (self : t) (data : json) : result t :=
  match data with
  | JObj d =>
      name' ← required "name" d;
      let description' := default (description self) (d !! "description") in
      price' ← required "price" d;
      available' ← required "available" d ≫= genuine_bool "available";
      category' ← required "category" d ≫= enum_member;
      Ok {| id := id self; name := name'; description := description';
            price := Some (Decimal_new price'); available := Some available';
            category := Some category' |}
  | _ => Raised NotAMapping
  end.

(** *** What the spec says of [deserialize], in its own words

    The conditions of section 4.1 under which a payload is refused, and what
    is promised of the entity otherwise. *)

Definition has_key (key : string) (d : gmap string json) : bool :=
  bool_decide (is_Some (d !! key)).

(** Some required key ([name], [price], [available], [category]) is absent. *)
Definition lacks_required_key (d : gmap string json) : bool :=
  negb (has_key "name" d && has_key "price" d
        && has_key "available" d && has_key "category" d).

(** [category] names a value outside the enumeration. *)
Definition category_outside_enumeration (d : gmap string json) : bool :=
  match d !! "category" with
  | Some v => bool_decide (category_of v = None)
  | None => false
  end.

(** [available] is present but not a genuine boolean. *)
Definition available_not_boolean (d : gmap string json) : bool :=
  match d !! "available" with
  | Some v => bool_decide (as_bool v = None)
  | None => false
  end.

Definition rejected (data : json) : bool :=
  match data with
  | JObj d =>
      lacks_required_key d || category_outside_enumeration d
      || available_not_boolean d
  | _ => true
  end.

(** Every required attribute of the entity carries the payload's value. *)
Definition populated_from (d : gmap string json) (self : t) : Prop :=
  d !! "name" = Some (name self)
  ∧ (∃ v, d !! "price" = Some v ∧ price self = Some (Decimal_new v))
  ∧ (∃ b, d !! "available" = Some (JBool b) ∧ available self = Some b)
  ∧ (∃ s c, d !! "category" = Some (JStr s) ∧ Category_lookup s = Some c
            ∧ category self = Some c).

(** An entity whose required attributes [price], [available] and [category]
    are set; [name] holds whatever it was given. *)
Definition fully_formed (self : t) : bool :=
  bool_decide (is_Some (price self)) && bool_decide (is_Some (available self))
  && bool_decide (is_Some (category self)).

(** *** The store *)

(** Modelled from the spec: the relational table behind the repository
    (the persistence collaborator of section 2).  [rows] is the table in
    insertion order and [sequence] the last id handed out, so that an id is
    never used twice. *)
Record Store := mkStore {
  rows : list t;
  sequence : Z
}.

Definition empty_store : Store := {| rows := []; sequence := 0 |}.

Definition with_id (i : Z) (self : t) : t :=
  {| id := Some i; name := name self; description := description self;
     price := price self; available := available self;
     category := category self |}.

Definition has_id (i : Z) (p : t) : bool :=
  match id p with Some j => bool_decide (j = i) | None => false end.

(** Modelled from the spec: [create] inserts a new row and assigns the
    generated id. *)
Definition create (self : t) (db : Store) : t * Store :=
  let i := sequence db + 1 in
  let self' := with_id i self in
  (self', {| rows := rows db ++ [self']; sequence := i |}).

(** Modelled from the spec: [update] requires the id to be set and fails with
    a validation error when it is not; otherwise it overwrites the row with
    that id. *)
Definition update (self : t) (db : Store) : result Store :=
  match id self with
  | None => Raised UpdateWithEmptyId
  | Some i =>
      Ok {| rows := (λ p, if has_id i p then self else p) <$> rows db;
            sequence := sequence db |}
  end.

(** Modelled from the spec: [delete] removes the row matching the entity's
    id, and does nothing when there is none. *)
Definition delete (self : t) (db : Store) : Store :=
  match id self with
  | None => db
  | Some i =>
      {| rows := filter (λ p, has_id i p = false) (rows db);
         sequence := sequence db |}
  end.

(** Modelled from the spec: [all] returns every row. *)
Definition all (db : Store) : list t := rows db.

(** Modelled from the spec: [find] ([find_by_id]) returns the row with the
    given id, or nothing. *)
Definition find (i : Z) (db : Store) : option t :=
  snd <$> list_find (λ p, has_id i p = true) (rows db).

(** Modelled from the spec: the rows whose name is exactly the given string. *)
Definition find_by_name (n : string) (db : Store) : list t :=
  filter (λ p, as_str (name p) = Some n) (rows db).

(** Modelled from the spec: the rows with the given availability. *)
Definition find_by_availability (b : bool) (db : Store) : list t :=
  filter (λ p, available p = Some b) (rows db).

(** Modelled from the spec: the rows of the given category. *)
Definition find_by_category (c : Category) (db : Store) : list t :=
  filter (λ p, category p = Some c) (rows db).

(** *** The shape the repository keeps a store in

    The last id handed out is not negative, every row carries an id between
    1 and that id, and no two rows carry the same id. *)
Definition id_in_range (db : Store) (p : t) : bool :=
  match id p with
  | Some i => bool_decide (1 ≤ i ≤ sequence db)
  | None => false
  end.

Definition well_formed (db : Store) : bool :=
  bool_decide (0 ≤ sequence db)
  && bool_decide (Forall (λ p, id_in_range db p = true) (rows db))
  && bool_decide (NoDup (id <$> rows db)).

End entity.
Arguments t : clear implicits.
Arguments Store : clear implicits.
End Product.

(** ** What Flask gives a handler and takes back *)

(** The parts of [flask.request] the handlers read: the headers, the query
    parameters ([request.args]) and the decoded JSON body
    ([request.get_json()]). *)
Record Request := mkRequest {
  headers : gmap string string;
  args : gmap string string;
  get_json : json
}.

(** A response body: [jsonify(v)], or a literal string. *)
Inductive Body :=
| Json (v : json)
| Text (s : string).

(** The triple a handler returns: body, status and extra headers. *)
Record Response := mkResponse {
  body : Body;
  status_code : Z;
  response_headers : gmap string string
}.

(** How a handler ends: it returns, it calls [abort(code, description)], or a
    [DataValidationError] leaves it uncaught. *)
Inductive Outcome (A : Type) :=
| Return (a : A)
| Abort (code : Z) (description : option string)
| Uncaught (e : DataValidationError).
Arguments Return {A} a.
Arguments Abort {A} code description.
Arguments Uncaught {A} e.

(** Modelled from the spec: the application's error handlers
    ([service/common/error_handlers.py], not among the sources): an abort answers
    with its code and a validation error with 400 (section 7). *)
Definition http_status (o : Outcome Response) : Z :=
  match o with
  | Return r => status_code r
  | Abort code _ => code
  | Uncaught _ => status.HTTP_400_BAD_REQUEST
  end.

(** ** The handlers of [service/routes.py]

    Each handler is the function of the source, statement by statement, with
    [flask.request] as an explicit argument and the store threaded through.
    [product_id] is the id the URL segment carries.  The calls to
    [app.logger] leave no trace in a response or in the store and are left
    out. *)
Module routes.
Section handlers.
Context {Decimal Category : Type} `{!DecimalType Decimal, !CategoryEnum Category}.

(** [flask.url_for(endpoint, product_id=..., _external=True)]: the URL
    builder of the routing host. *)
Context (url_for : string → Z → string).

Abbreviation Product := (Product.t Decimal Category).
Abbreviation Store := (Product.Store Decimal Category).

(** A handler runs against the store and leaves a store behind. *)
Definition Handler (A : Type) : Type := Store → Outcome A * Store.

#[local] Instance Handler_ret : MRet Handler := λ A a db, (Return a, db).
#[local] Instance Handler_bind : MBind Handler := λ A B f m db,
  match m db with
  | (Return a, db') => f a db'
  | (Abort code description, db') => (Abort code description, db')
  | (Uncaught e, db') => (Uncaught e, db')
  end.

Definition abort {A} (code : Z) (description : option string) : Handler A :=
  λ db, (Abort code description, db).

(** A call into the entity layer; what it raises is not caught here. *)
Definition call {A} (r : result A) : Handler A :=
  λ db, (match r with Ok a => Return a | Raised e => Uncaught e end, db).

Definition query {A} (q : Store → A) : Handler A :=
  λ db, (Return (q db), db).

(** [product.create()]: the entity comes back with its id assigned. *)
Definition create (product : Product) : Handler Product :=
  λ db, let '(product', db') := Product.create product db in
        (Return product', db').

(** [product.update()]. *)
Definition update (product : Product) : Handler unit :=
  λ db, match Product.update product db with
        | Ok db' => (Return (), db')
        | Raised e => (Uncaught e, db)
        end.

(** [product.delete()]. *)
Definition delete (product : Product) : Handler unit :=
  λ db, (Return (), Product.delete product db).


(** [if cond: stmt], where the statement does not fall through. *)
Definition when (cond : bool) (stmt : Handler unit) : Handler unit :=
  if cond then stmt else mret ().

(** Checks that the media type is correct. *)
Definition check_content_type (request : Request) (content_type : string)
  : Handler unit :=
  when (bool_decide (headers request !! "Content-Type" = None))
    (abort status.HTTP_415_UNSUPPORTED_MEDIA_TYPE
       (Some ("Content-Type must be " +:+ content_type)));;
  if bool_decide (headers request !! "Content-Type" = Some content_type)
  then mret ()
  else abort status.HTTP_415_UNSUPPORTED_MEDIA_TYPE
         (Some ("Content-Type must be " +:+ content_type)).

(** POST /products: creates a Product from the posted body. *)
Definition create_products (request : Request) : Handler Response :=
  check_content_type request "application/json";;
  let data := get_json request in
  product ← call (Product.deserialize Product.new data);
  product ← create product;
  let message := Product.serialize product in
  let location_url := "/" in
  mret {| body := Json message;
          status_code := status.HTTP_201_CREATED;
          response_headers := {[ "Location" := location_url ]} |}.

(** The loop [for product in products: serialized_products.append(...)]. *)
Definition serialize_each (products : list Product) : list json :=
  foldl (λ serialized_products product,
           serialized_products ++ [Product.serialize product]) [] products.

(** GET /products: returns a list of Products. *)
Definition get_all_products (request : Request) : Handler Response :=
  products ← query Product.all;
  when (bool_decide (Z.of_nat (length products) < 1))
    (abort status.HTTP_404_NOT_FOUND None);;
  let serialized_products := serialize_each products in
  mret {| body := Json (JArr serialized_products);
          status_code := status.HTTP_200_OK;
          response_headers := ∅ |}.

(** GET /products/name/: the products that match the name provided. *)
Definition get_products_by_name (request : Request) : Handler Response :=
  let name := args request !! "name" in
  products ←
    match name with
    | Some n =>
        if bool_decide (n = "") then query Product.all
        else query (Product.find_by_name n)
    | None => query Product.all
    end;
  let serialized_products := Product.serialize <$> products in
  mret {| body := Json (JArr serialized_products);
          status_code := status.HTTP_200_OK;
          response_headers := ∅ |}.

(** GET /products/<product_id>: reads one Product. *)
Definition get_products (request : Request) (product_id : Z)
  : Handler Response :=
  product ← query (Product.find product_id);
  let location_url := url_for "get_products" product_id in
  match product with
  | None =>
      mret {| body := Json (JStr "Product not found");
              status_code := status.HTTP_404_NOT_FOUND;
              response_headers := {[ "Location" := location_url ]} |}
  | Some product =>
      mret {| body := Json (Product.serialize product);
              status_code := status.HTTP_200_OK;
              response_headers := {[ "Location" := location_url ]} |}
  end.

(** PUT /products/<product_id>: updates a Product from the posted body. *)
Definition update_products (request : Request) (product_id : Z)
  : Handler Response :=
  check_content_type request "application/json";;
  product ← query (Product.find product_id);
  match product with
  | None => abort status.HTTP_404_NOT_FOUND None
  | Some product =>
      product ← call (Product.deserialize product (get_json request));
      update product;;
      let location_url := url_for "update_products" product_id in
      mret {| body := Json (Product.serialize product);
              status_code := status.HTTP_200_OK;
              response_headers := {[ "Location" := location_url ]} |}
  end.

(** DELETE /products/<product_id>: deletes a Product. *)
Definition delete_product (request : Request) (product_id : Z)
  : Handler Response :=
  product ← query (Product.find product_id);
  match product with
  | None => abort status.HTTP_404_NOT_FOUND None
  | Some product =>
      let location_url := url_for "update_products" product_id in
      delete product;;
      mret {| body := Text "";
              status_code := status.HTTP_204_NO_CONTENT;
              response_headers := {[ "Location" := location_url ]} |}
  end.

End handlers.
End routes.

(** ** The helpers of [tests/test_routes.py]

    The test client sends a request to the handler of its verb and path and
    shows the test the status and the body of the answer.  [ProductFactory]
    is not among the sources: the products it makes are an argument. *)
Module test_routes.
Section helpers.
Context {Decimal Category : Type} `{!DecimalType Decimal, !CategoryEnum Category}.

Abbreviation Product := (Product.t Decimal Category).
Abbreviation Store := (Product.Store Decimal Category).

(** [self.client.post(BASE_URL, json=data)]. *)
Definition post (data : json) : routes.Handler Response :=
  routes.create_products
    {| headers := {[ "Content-Type" := "application/json" ]};
       args := ∅; get_json := data |}.

(** [self.client.get(BASE_URL)]. *)
Definition get : routes.Handler Response :=
  routes.get_all_products {| headers := ∅; args := ∅; get_json := JNull |}.

(** [response.get_json()]: the body of an answer that has one. *)
Definition response_json (response : Outcome Response) : option json :=
  match response with
  | Return r => match body r with Json v => Some v | Text _ => None end
  | _ => None
  end.

(** [test_product.id = v]: an id is an integer or null. *)
Definition set_id (test_product : Product) (v : json) : option Product :=
  match v with
  | JInt i => Some (Product.with_id i test_product)
  | JNull =>
      Some {| Product.id := None; Product.name := Product.name test_product;
              Product.description := Product.description test_product;
              Product.price := Product.price test_product;
              Product.available := Product.available test_product;
              Product.category := Product.category test_product |}
  | _ => None
  end.

(** The loop of [_create_products]: one post for each product the factory
    makes; [None] is a failed assertion or a raised error. *)
Fixpoint create_loop (factory products : list Product) (db : Store)
  : option (list Product * Store) :=
  match factory with
  | [] => Some (products, db)
  | test_product :: factory =>
      let '(response, db) := post (Product.serialize test_product) db in
      if bool_decide (http_status response = status.HTTP_201_CREATED) then
        match response_json response with
        | Some (JObj new_product) =>
            v ← new_product !! "id";
            test_product ← set_id test_product v;
            create_loop factory (products ++ [test_product]) db
        | _ => None
        end
      else None
  end.

(** Factory method to create products in bulk. *)
Definition _create_products (factory : list Product) (db : Store)
  : option (list Product * Store) :=
  create_loop factory [] db.

(** [len(data)] on a decoded body. *)
Definition len (data : json) : option nat :=
  match data with
  | JArr l => Some (length l)
  | JObj d => Some (size d)
  | JStr s => Some (String.length s)
  | _ => None
  end.

(** Saves the current number of products. *)
Definition get_product_count (db : Store) : option nat :=
  let '(response, _) := get db in
  if bool_decide (http_status response = status.HTTP_200_OK) then
    response_json response ≫= len
  else None.

End helpers.
End test_routes.

(** ** A concrete shop

    An enumeration and a decimal type to run the handlers on. *)
Module Shop.

(** Modelled from the spec: the members of the [Category] enumeration that
    the spec names (section 3). *)
Inductive Category := UNKNOWN | CLOTHS | FOOD.

#[global] Instance Category_eq_dec : EqDecision Category.
Proof. solve_decision. Defined.

Definition name (c : Category) : string :=
  match c with
  | UNKNOWN => "UNKNOWN"
  | CLOTHS => "CLOTHS"
  | FOOD => "FOOD"
  end.

Definition lookup (s : string) : option Category :=
  if bool_decide (s = "UNKNOWN") then Some UNKNOWN
  else if bool_decide (s = "CLOTHS") then Some CLOTHS
  else if bool_decide (s = "FOOD") then Some FOOD
  else None.

Lemma lookup_name c : lookup (name c) = Some c.
Proof. by destruct c. Qed.

#[global] Instance Category_enum : CategoryEnum Category :=
  {| Category_name := name; Category_lookup := lookup;
     Category_lookup_name := lookup_name |}.

(** Prices in whole units: a decimal with no fractional digits is an integer,
    written and read in base ten. *)
Definition str (d : Z) : string := NilZero.string_of_int (Z.to_int d).

Definition Decimal (v : json) : Z :=
  match v with
  | JStr s => from_option Z.of_int 0 (NilZero.int_of_string s)
  | JInt n => n
  | _ => 0
  end.

Lemma Decimal_of_str d : Decimal (JStr (str d)) = d.
Proof.
  unfold Decimal, str. rewrite NilZero.isi.
  - simpl. apply DecimalZ.of_to.
  - destruct d as [|p|p]; simpl; try discriminate.
    intros [= Hp]. by apply DecimalPos.Unsigned.to_uint_nonnil in Hp.
  - destruct d as [|p|p]; simpl; try discriminate.
    intros [= Hp]. by apply DecimalPos.Unsigned.to_uint_nonnil in Hp.
Qed.

#[global] Instance Decimal_type : DecimalType Z :=
  {| Decimal_new := Decimal; Decimal_str := str; Decimal_new_str := Decimal_of_str |}.

Abbreviation Product := (Product.t Z Category).
Abbreviation Store := (Product.Store Z Category).

Definition url_for (endpoint : string) (product_id : Z) : string :=
  "http://localhost/products/" +:+ str product_id.

Definition hat : Product :=
  {| Product.id := None; Product.name := JStr "Hat";
     Product.description := JStr "A red hat"; Product.price := Some 12;
     Product.available := Some true; Product.category := Some CLOTHS |}.

Definition bread : Product :=
  {| Product.id := None; Product.name := JStr "Bread";
     Product.description := JStr "A loaf"; Product.price := Some 3;
     Product.available := Some false; Product.category := Some FOOD |}.

(** The hat as the store holds it, with a new description. *)
Definition hat_unknown : Product :=
  {| Product.id := Some 1; Product.name := JStr "Hat";
     Product.description := JStr "unknown"; Product.price := Some 12;
     Product.available := Some true; Product.category := Some CLOTHS |}.

(** The store after [hat] and [bread] were created, in this order. *)
Definition two_products : Store :=
  (Product.create bread (Product.create hat Product.empty_store).2).2.

Definition json_request (data : json) : Request :=
  {| headers := {[ "Content-Type" := "application/json" ]};
     args := ∅; get_json := data |}.

Definition query_request (key value : string) : Request :=
  {| headers := ∅; args := {[ key := value ]}; get_json := JNull |}.

(** The entries of a JSON object. *)
Definition fields (v : json) : gmap string json :=
  match v with JObj d => d | _ => ∅ end.

(** A JSON post of the hat. *)
Definition post_hat : Request := json_request (Product.serialize hat).

(** A form post: a Content-Type that is not application/json. *)
Definition form_request : Request :=
  {| headers := {[ "Content-Type" := "plain/text" ]};
     args := ∅; get_json := JNull |}.

End Shop.


(** * Properties *)

(** ** The entity and the repository *)
Section repository.
Context {Decimal Category : Type} `{!DecimalType Decimal, !CategoryEnum Category}.
Implicit Types (self product : Product.t Decimal Category).
Implicit Types (db : Product.Store Decimal Category).
Implicit Types (d : gmap string json) (i j : Z).

Lemma has_id_true i product :
  Product.has_id i product = true ↔ Product.id product = Some i.
Proof.
  unfold Product.has_id. destruct (Product.id product) as [k|]; [|done].
  rewrite bool_decide_eq_true. naive_solver.
Qed.

Lemma has_id_false i product :
  Product.has_id i product = false ↔ Product.id product ≠ Some i.
Proof. rewrite <-has_id_true. by destruct (Product.has_id i product). Qed.

Lemma find_Some i db product :
  Product.find i db = Some product →
  Product.id product = Some i ∧ product ∈ Product.all db.
Proof.
  unfold Product.find, Product.all.
  destruct (list_find _ _) as [[k p]|] eqn:Hfind; intros [= <-].
  apply list_find_Some in Hfind as (Hk & Hp & _).
  split; [by apply has_id_true | by eapply list_elem_of_lookup_2].
Qed.

Lemma find_None i db :
  Product.find i db = None ↔
  ∀ product, product ∈ Product.all db → Product.id product ≠ Some i.
Proof.
  unfold Product.find, Product.all. rewrite fmap_None, list_find_None, Forall_forall.
  apply forall_proper; intros p. by rewrite <-has_id_true.
Qed.

(** A deleted id is not found again. *)
Lemma find_delete_eq i product db :
  Product.id product = Some i →
  Product.find i (Product.delete product db) = None.
Proof.
  intros Hid. apply find_None. intros p. unfold Product.all, Product.delete.
  rewrite Hid. simpl. by intros [Hp%has_id_false _]%list_elem_of_filter.
Qed.

(** Deleting keeps every other row. *)
Lemma all_delete i product db :
  Product.id product = Some i →
  Product.all (Product.delete product db)
  = filter (λ p, Product.id p ≠ Some i) (Product.all db).
Proof.
  intros Hid. unfold Product.all, Product.delete. rewrite Hid. simpl.
  apply list_filter_iff. intros p. apply has_id_false.
Qed.

(** [update] succeeds exactly on an entity that has an id. *)
Lemma update_Ok self db :
  is_Some (Product.id self) ↔ ∃ db', Product.update self db = Ok db'.
Proof.
  unfold Product.update. destruct (Product.id self); split.
  - eauto.
  - eauto.
  - by intros [? ?].
  - by intros [? [=]].
Qed.

Lemma find_update_eq i self db db' :
  Product.id self = Some i →
  Product.update self db = Ok db' →
  Product.find i db' = (λ _, self) <$> Product.find i db.
Proof.
  unfold Product.update, Product.find. intros Hid. rewrite Hid. intros [= <-].
  simpl. rewrite list_find_fmap.
  rewrite (list_find_ext _ (λ p, Product.has_id i p = true)).
  - destruct (list_find _ _) as [[k p]|] eqn:Hfind; [|done]. simpl.
    apply list_find_Some in Hfind as (_ & Hp & _). by rewrite Hp.
  - intros p. simpl. destruct (Product.has_id i p) eqn:Hp; [|by rewrite Hp].
    split; [done|]. intros _. by apply has_id_true.
Qed.

Lemma find_update_ne i j self db db' :
  Product.id self = Some i → j ≠ i →
  Product.update self db = Ok db' →
  Product.find j db' = Product.find j db.
Proof.
  unfold Product.update, Product.find. intros Hid Hne. rewrite Hid. intros [= <-].
  simpl. rewrite list_find_fmap.
  assert (∀ product, Product.has_id j product = true →
                     Product.has_id i product = false) as Hji.
  { intros p Hp%has_id_true. apply has_id_false. congruence. }
  rewrite (list_find_ext _ (λ p, Product.has_id j p = true)).
  - destruct (list_find _ _) as [[k p]|] eqn:Hfind; [|done]. simpl.
    apply list_find_Some in Hfind as (_ & Hp & _). by rewrite (Hji _ Hp).
  - intros p. simpl. destruct (Product.has_id i p) eqn:Hp; [|done].
    split.
    + intros Hself%has_id_true. congruence.
    + intros Hjp. apply Hji in Hjp. congruence.
Qed.

(** Updating an id that no row carries changes nothing. *)
Lemma update_absent i self db :
  Product.id self = Some i → Product.find i db = None →
  Product.update self db = Ok db.
Proof.
  intros Hid Hnone. unfold Product.update. rewrite Hid. f_equal.
  destruct db as [rows sequence]. simpl. f_equal.
  rewrite <-(list_fmap_id rows) at 2. apply list_fmap_ext.
  intros k p Hk. simpl.
  assert (Product.has_id i p = false) as ->; [|done].
  apply has_id_false, (proj1 (find_None i _) Hnone).
  by eapply list_elem_of_lookup_2.
Qed.

End repository.

(** ** Serialisation *)
Section serialisation.
Context {Decimal Category : Type} `{!DecimalType Decimal, !CategoryEnum Category}.
Implicit Types (self product : Product.t Decimal Category).
Implicit Types (d : gmap string json).

Lemma category_of_Some v c :
  Product.category_of (Category:=Category) v = Some c ↔
  ∃ s, v = JStr s ∧ Category_lookup s = Some c.
Proof.
  unfold Product.category_of.
  destruct v as [| | |s| |]; simpl; (split; [|intros (s' & [= <-] & Hs)]); eauto; done.
Qed.

(** What a successful [deserialize] read, key by key. *)
Lemma deserialize_Ok self d product :
  Product.deserialize self (JObj d) = Ok product ↔
  ∃ n v b vc c,
    d !! "name" = Some n ∧ d !! "price" = Some v
    ∧ d !! "available" = Some (JBool b)
    ∧ d !! "category" = Some vc ∧ Product.category_of vc = Some c
    ∧ product = {| Product.id := Product.id self; Product.name := n;
                   Product.description :=
                     default (Product.description self) (d !! "description");
                   Product.price := Some (Decimal_new v);
                   Product.available := Some b; Product.category := Some c |}.
Proof.
  unfold Product.deserialize, required, Product.genuine_bool, Product.enum_member.
  split.
  - destruct (d !! "name") as [n|]; [|done].
    destruct (d !! "price") as [v|]; [|done].
    destruct (d !! "available") as [[]|]; try done.
    destruct (d !! "category") as [vc|]; [|done]. simpl.
    destruct (Product.category_of vc) as [c|] eqn:Hc; [|done]. simpl.
    intros [= <-]. by eexists n, v, _, vc, c.
  - intros (n & v & b & vc & c & -> & -> & -> & -> & Hc & ->). simpl.
    by rewrite Hc.
Qed.

Lemma rejected_false d :
  Product.rejected (Category:=Category) (JObj d) = false ↔
  ∃ n v b vc c,
    d !! "name" = Some n ∧ d !! "price" = Some v
    ∧ d !! "available" = Some (JBool b)
    ∧ d !! "category" = Some vc ∧ Product.category_of vc = Some c.
Proof.
  unfold Product.rejected, Product.lacks_required_key,
    Product.category_outside_enumeration, Product.available_not_boolean,
    Product.has_key.
  rewrite !orb_false_iff, negb_false_iff, !andb_true_iff, !bool_decide_eq_true.
  split.
  - intros ((((([n ->] & [v ->]) & [a Ha]) & [vc Hvc]) & Hcat) & Hav).
    rewrite Ha in Hav. rewrite Hvc in Hcat.
    apply bool_decide_eq_false in Hcat, Hav.
    destruct (Product.category_of vc) as [c|] eqn:Hc; [|done].
    destruct a as [|b| | | |]; try done.
    by eexists n, v, b, vc, c.
  - intros (n & v & b & vc & c & -> & -> & -> & -> & Hc).
    rewrite Hc. split_and!; by eauto.
Qed.

End serialisation.

(** ** Running a handler *)
Section handler_steps.
Context {Decimal Category : Type} `{!DecimalType Decimal, !CategoryEnum Category}.
Context (url_for : string → Z → string).
Implicit Types (product : Product.t Decimal Category).
Implicit Types (db : Product.Store Decimal Category).

Lemma bind_Return {A B} (m : routes.Handler A) (f : A → routes.Handler B) db a db' :
  m db = (Return a, db') →
  routes.Handler_bind A B f m db = f a db'.
Proof. unfold routes.Handler_bind. by intros ->. Qed.

Lemma bind_Abort {A B} (m : routes.Handler A) (f : A → routes.Handler B)
    db code description db' :
  m db = (Abort code description, db') →
  routes.Handler_bind A B f m db = (Abort code description, db').
Proof. unfold routes.Handler_bind. by intros ->. Qed.

Lemma check_content_type_accepts request content_type db :
  headers request !! "Content-Type" = Some content_type →
  routes.check_content_type (Decimal:=Decimal) (Category:=Category)
    request content_type db = (Return (), db).
Proof.
  intros Hct. unfold routes.check_content_type, routes.when, mbind.
  rewrite Hct. simpl. unfold routes.Handler_bind, mret, routes.Handler_ret.
  by rewrite bool_decide_eq_true_2.
Qed.

Lemma check_content_type_refuses request content_type db :
  headers request !! "Content-Type" ≠ Some content_type →
  routes.check_content_type (Decimal:=Decimal) (Category:=Category)
    request content_type db
  = (Abort 415 (Some ("Content-Type must be " +:+ content_type)), db).
Proof.
  intros Hct. unfold routes.check_content_type, routes.when, mbind.
  unfold routes.Handler_bind, mret, routes.Handler_ret, routes.abort.
  destruct (headers request !! "Content-Type") as [v|]; simpl; [|done].
  by rewrite bool_decide_eq_false_2.
Qed.

(** The loop of [get_all_products] serialises the products in order. *)
Lemma serialize_each_fmap (products : list (Product.t Decimal Category)) :
  routes.serialize_each products = Product.serialize <$> products.
Proof.
  unfold routes.serialize_each.
  enough (∀ acc, foldl (λ acc product, acc ++ [Product.serialize product])
                   acc products
                 = acc ++ (Product.serialize <$> products)) as Hloop
    by apply (Hloop []).
  induction products as [|product products IH]; intros acc; simpl.
  - by rewrite app_nil_r.
  - by rewrite IH, <-app_assoc.
Qed.

(** [get_all_products] never reads the request. *)
Lemma get_all_products_any_request request request' db :
  routes.get_all_products request db = routes.get_all_products request' db.
Proof. reflexivity. Qed.

Lemma get_all_products_run request db :
  routes.get_all_products request db
  = match Product.all db with
    | [] => (Abort 404 None, db)
    | products =>
        (Return {| body := Json (JArr (Product.serialize <$> products));
                   status_code := 200; response_headers := ∅ |}, db)
    end.
Proof.
  unfold routes.get_all_products, mbind, routes.Handler_bind, routes.query,
    routes.when, routes.abort, mret, routes.Handler_ret.
  destruct (Product.all db) as [|product products] eqn:Hall; simpl; [done|].
  rewrite bool_decide_eq_false_2 by lia.
  by rewrite serialize_each_fmap.
Qed.

End handler_steps.

(** ** The claims *)
Section claims.
Context {Decimal Category : Type} `{!DecimalType Decimal, !CategoryEnum Category}.
Context (url_for : string → Z → string).
Implicit Types (self product : Product.t Decimal Category).
Implicit Types (db : Product.Store Decimal Category).
Implicit Types (request : Request) (product_id : Z).

(** C3: [deserialize] fails with a validation error exactly when the payload
    is not a mapping, lacks one of the required keys [name], [price],
    [available], [category], names a category outside the enumeration, or
    carries an [available] that is not a genuine boolean; on every other
    payload it succeeds, and each required attribute of the entity it yields
    carries the payload's value. *)
Theorem C3_deserialize_validation self data :
  (fails (Product.deserialize self data) ↔ Product.rejected (Category:=Category) data = true)
  ∧ (Product.rejected (Category:=Category) data = false →
     ∃ d product, data = JObj d
       ∧ Product.deserialize self data = Ok product
       ∧ Product.populated_from d product).
Proof.
  assert (Product.rejected (Category:=Category) data = false →
          ∃ d product, data = JObj d
            ∧ Product.deserialize self data = Ok product
            ∧ Product.populated_from d product) as Haccept.
  { destruct data as [| | | | |d]; try done.
    intros (n & v & b & vc & c & Hn & Hv & Hb & Hvc & Hc)%rejected_false.
    eexists d, _. split; [done|]. split.
    - apply deserialize_Ok. by eexists n, v, b, vc, c.
    - apply category_of_Some in Hc as (s & -> & Hs).
      unfold Product.populated_from. simpl. split_and!; eauto. }
  split; [|done]. split.
  - intros [e He]. destruct (Product.rejected data) eqn:Hrej; [done|].
    destruct (Haccept eq_refl) as (d & product & _ & Hok & _). congruence.
  - intros Hrej. destruct (Product.deserialize self data) as [product|e] eqn:Hd;
      [|by exists e].
    destruct data as [| | | | |d]; try done.
    apply deserialize_Ok in Hd as (n & v & b & vc & c & Hn & Hv & Hb & Hvc & Hc & _).
    assert (Product.rejected (Category:=Category) (JObj d) = false) as Hacc
      by (apply rejected_false; by eexists n, v, b, vc, c).
    congruence.
Qed.

(** C4: serialising a fully formed Product and deserialising the result
    into any entity gives back every field of the Product (name, description,
    price, available, category); the id alone stays that of the receiving
    entity. *)
Theorem C4_round_trip self product :
  Product.fully_formed product = true →
  ∃ product',
    Product.deserialize self (Product.serialize product) = Ok product'
    ∧ Product.name product' = Product.name product
    ∧ Product.description product' = Product.description product
    ∧ Product.price product' = Product.price product
    ∧ Product.available product' = Product.available product
    ∧ Product.category product' = Product.category product
    ∧ Product.id product' = Product.id self.
Proof.
  unfold Product.fully_formed. rewrite !andb_true_iff, !bool_decide_eq_true.
  intros [[[p Hp] [a Ha]] [c Hc]].
  eexists. split.
  - apply deserialize_Ok. unfold Product.serialize. rewrite Hp, Ha, Hc. simpl.
    eexists (Product.name product), (JStr (Decimal_str p)), a,
      (JStr (Category_name c)), c.
    split_and!; [by simplify_map_eq..| |done].
    apply category_of_Some. eexists. split; [done|]. apply Category_lookup_name.
  - simpl. unfold Product.serialize. simplify_map_eq.
    by rewrite Decimal_new_str, Hp, Ha, Hc.
Qed.

(** C5: [update] on an entity whose id is null fails with a validation error
    and leaves the store as it was.  With a non-null id it is not a
    validation error, and when no row has that id it creates none; the
    handler answers such an id with 404, not with the 400 of a validation
    error. *)
Theorem C5_update_requires_id product db request product_id :
  (Product.id product = None →
     Product.update product db = Raised UpdateWithEmptyId
     ∧ routes.update product db = (Uncaught UpdateWithEmptyId, db)
     ∧ http_status (Uncaught UpdateWithEmptyId) = 400)
  ∧ (Product.id product = Some product_id →
     Product.find product_id db = None →
     Product.update product db = Ok db)
  ∧ (headers request !! "Content-Type" = Some "application/json" →
     Product.find product_id db = None →
     routes.update_products url_for request product_id db = (Abort 404 None, db)).
Proof.
  split_and!.
  - intros Hid. unfold routes.update, Product.update. by rewrite Hid.
  - apply update_absent.
  - intros Hct Hnone. unfold routes.update_products, mbind.
    erewrite bind_Return by by apply check_content_type_accepts.
    erewrite bind_Return by reflexivity. by rewrite Hnone.
Qed.

(** C6: GET /products answers 404 when the store holds no product, and 200
    with the JSON array of every product's serialisation when it holds at
    least one; the store is left as it was. *)
Theorem C6_list_all request db :
  (Product.all db = [] →
     routes.get_all_products request db = (Abort 404 None, db))
  ∧ (Product.all db ≠ [] →
     routes.get_all_products request db
     = (Return {| body := Json (JArr (Product.serialize <$> Product.all db));
                  status_code := 200; response_headers := ∅ |}, db)).
Proof.
  rewrite get_all_products_run.
  destruct (Product.all db) as [|product products]; by split.
Qed.

(** C7: on POST /products and on PUT /products/<id>, a request with no
    Content-Type header and a request whose Content-Type is not exactly
    application/json end the same way: status 415, with a message that names
    application/json.  A request whose Content-Type is application/json
    passes the check, and neither handler answers it with 415. *)
Theorem C7_content_type request product_id db :
  (headers request !! "Content-Type" = None
   ∨ (∃ v, headers request !! "Content-Type" = Some v ∧ v ≠ "application/json") →
     routes.create_products request db
     = (Abort 415 (Some "Content-Type must be application/json"), db)
     ∧ routes.update_products url_for request product_id db
       = (Abort 415 (Some "Content-Type must be application/json"), db))
  ∧ (headers request !! "Content-Type" = Some "application/json" →
     routes.check_content_type (Decimal:=Decimal) (Category:=Category)
       request "application/json" db = (Return (), db)
     ∧ http_status (routes.create_products request db).1 ≠ 415
     ∧ http_status (routes.update_products url_for request product_id db).1 ≠ 415).
Proof.
  split.
  - intros Hct.
    assert (headers request !! "Content-Type" ≠ Some "application/json") as Hne
      by (destruct Hct as [->|(v & -> & Hv)]; congruence).
    unfold routes.create_products, routes.update_products, mbind.
    split; by erewrite bind_Abort by by apply check_content_type_refuses.
  - intros Hct. split; [by apply check_content_type_accepts|].
    unfold routes.create_products, routes.update_products, mbind. split.
    + erewrite bind_Return by by apply check_content_type_accepts.
      unfold routes.Handler_bind, routes.call, routes.create.
      by destruct (Product.deserialize _ _).
    + erewrite bind_Return by by apply check_content_type_accepts.
      erewrite bind_Return by reflexivity.
      destruct (Product.find product_id db) as [product|]; [|done].
      unfold routes.Handler_bind, routes.call, routes.update.
      destruct (Product.deserialize _ _) as [updated|]; [|done].
      by destruct (Product.update updated db).
Qed.

(** C8: DELETE /products/<id> answers 204 with an empty body when a product
    with that id exists, and removes it; it answers 404 when none exists.
    Deleting the same id a second time therefore answers 404. *)
Theorem C8_delete request request' product_id db :
  (is_Some (Product.find product_id db) →
     ∃ db',
       routes.delete_product url_for request product_id db
       = (Return {| body := Text ""; status_code := 204;
                    response_headers :=
                      {[ "Location" := url_for "update_products" product_id ]} |},
          db')
       ∧ Product.find product_id db' = None
       ∧ Product.all db'
         = filter (λ p, Product.id p ≠ Some product_id) (Product.all db)
       ∧ routes.delete_product url_for request' product_id db'
         = (Abort 404 None, db'))
  ∧ (Product.find product_id db = None →
     routes.delete_product url_for request product_id db = (Abort 404 None, db)).
Proof.
  assert (∀ r db0, Product.find product_id db0 = None →
            routes.delete_product url_for r product_id db0 = (Abort 404 None, db0))
    as Hmissing.
  { intros r db0 Hnone. unfold routes.delete_product, mbind.
    erewrite bind_Return by reflexivity. by rewrite Hnone. }
  split; [|by apply Hmissing].
  intros [product Hfind]. destruct (find_Some _ _ _ Hfind) as [Hid _].
  exists (Product.delete product db). split_and!.
  - unfold routes.delete_product, mbind.
    erewrite bind_Return by reflexivity. by rewrite Hfind.
  - by apply find_delete_eq.
  - by apply all_delete.
  - by apply Hmissing, find_delete_eq.
Qed.

(** C9: PUT /products/<id> with the right content type answers 404 when no
    product has that id.  When one has and the body deserialises, the answer
    is 200 with the serialisation of the updated product: its id is still the
    id of the URL, its required fields are the body's, its description is the
    body's when the body has one and the old one otherwise, and the response
    shows it; the store then holds the updated product under that id and
    every other product as before. *)
Theorem C9_update request product_id db :
  headers request !! "Content-Type" = Some "application/json" →
  (Product.find product_id db = None →
     routes.update_products url_for request product_id db = (Abort 404 None, db))
  ∧ (∀ product updated,
       Product.find product_id db = Some product →
       Product.deserialize product (get_json request) = Ok updated →
       ∃ d db',
         get_json request = JObj d
         ∧ routes.update_products url_for request product_id db
           = (Return {| body := Json (Product.serialize updated);
                        status_code := 200;
                        response_headers :=
                          {[ "Location" := url_for "update_products" product_id ]} |},
              db')
         ∧ Product.id product = Some product_id
         ∧ Product.id updated = Some product_id
         ∧ Product.populated_from d updated
         ∧ Product.description updated
           = default (Product.description product) (d !! "description")
         ∧ (∃ m, Product.serialize updated = JObj m
               ∧ m !! "id" = Some (JInt product_id)
               ∧ m !! "description" = Some (Product.description updated))
         ∧ Product.find product_id db' = Some updated
         ∧ (∀ other, other ≠ product_id →
              Product.find other db' = Product.find other db)).
Proof.
  intros Hct. split.
  - intros Hnone. unfold routes.update_products, mbind.
    erewrite bind_Return by by apply check_content_type_accepts.
    erewrite bind_Return by reflexivity. by rewrite Hnone.
  - intros product updated Hfind Hdes.
    destruct (find_Some _ _ _ Hfind) as [Hid _].
    destruct (get_json request) as [| | | | |d] eqn:Hbody; try done.
    pose proof Hdes as (n & v & b & vc & c & Hn & Hv & Hb & Hvc & Hc & Hupd)%deserialize_Ok.
    assert (Product.id updated = Some product_id) as Hid' by (by subst updated).
    destruct (proj1 (update_Ok updated db)) as [db' Hdb']; [by rewrite Hid'|].
    exists d, db'. split_and!; try done.
    + unfold routes.update_products, mbind.
      erewrite bind_Return by by apply check_content_type_accepts.
      erewrite bind_Return by reflexivity. rewrite Hfind, Hbody.
      erewrite bind_Return by (unfold routes.call; by rewrite Hdes).
      erewrite bind_Return by (unfold routes.update; by rewrite Hdb').
      done.
    + apply category_of_Some in Hc as (s & -> & Hs). subst updated.
      unfold Product.populated_from. simpl. split_and!; eauto.
    + by subst updated.
    + eexists. split; [reflexivity|]. rewrite Hid'. by simplify_map_eq.
    + rewrite (find_update_eq product_id updated db db' Hid' Hdb').
      by rewrite Hfind.
    + intros other Hother. by eapply find_update_ne.
Qed.

(** C10: every successful POST /products (status 201) carries the Location
    header "/", whatever product was created; the id the store assigned is
    the [id] entry of the response body, which is the serialisation of the
    row appended to the store. *)
Theorem C10_create_location request db :
  http_status (routes.create_products request db).1 = 201 →
  ∃ created response,
    routes.create_products request db
    = (Return response,
       {| Product.rows := Product.all db ++ [created];
          Product.sequence := Product.sequence db + 1 |})
    ∧ status_code response = 201
    ∧ response_headers response = {[ "Location" := "/" ]}
    ∧ response_headers response !! "Location" = Some "/"
    ∧ Product.id created = Some (Product.sequence db + 1)
    ∧ body response = Json (Product.serialize created)
    ∧ (∃ d, Product.serialize created = JObj d
          ∧ d !! "id" = Some (JInt (Product.sequence db + 1))).
Proof.
  unfold routes.create_products, mbind.
  destruct (decide (headers request !! "Content-Type" = Some "application/json"))
    as [Hct|Hct].
  2: { by erewrite bind_Abort by by apply check_content_type_refuses. }
  erewrite bind_Return by by apply check_content_type_accepts.
  unfold routes.Handler_bind, routes.call, routes.create.
  destruct (Product.deserialize _ _) as [product|e]; [|done].
  simpl. intros _. eexists _, _. split; [reflexivity|]. simpl.
  split_and!; try done.
  eexists. split; [reflexivity|]. by simplify_map_eq.
Qed.

End claims.

(** ** The claims at work in the concrete shop *)

(** The two rows of [Shop.two_products], with the ids the store gave them. *)
Example two_products_rows :
  Product.all Shop.two_products
  = [Product.with_id 1 Shop.hat; Product.with_id 2 Shop.bread].
Proof. reflexivity. Qed.

(** The refusals of [tests/test_models.py]: an [available] that is the string
    SUPERPOSITION, a category MACHINE, and an entity in place of a mapping
    (here a value that is no mapping). *)
Example deserialize_invalid_availability :
  Product.deserialize Shop.hat
    (JObj {[ "name" := JStr "Hat"; "price" := JStr "12";
             "available" := JStr "SUPERPOSITION"; "category" := JStr "CLOTHS" ]})
  = Raised (InvalidBoolean "available").
Proof. by vm_compute. Qed.

Example deserialize_unknown_category :
  Product.deserialize Shop.hat
    (JObj {[ "name" := JStr "Hat"; "price" := JStr "12";
             "available" := JBool true; "category" := JStr "MACHINE" ]})
  = Raised (InvalidCategory (JStr "MACHINE")).
Proof. by vm_compute. Qed.

Example deserialize_from_object :
  Product.deserialize Shop.hat (JStr "<Product Hat id=[None]>") = Raised NotAMapping.
Proof. reflexivity. Qed.

(** C1: with a hat and a loaf of bread in the store, GET /products?name=Hat
    answers 200 with both products (the loaf is not named Hat): the handler
    does not read the [name] parameter.  GET /products/name/?name=Hat, on the
    same store, answers with the hat alone. *)
Theorem C1_name_parameter_ignored :
  routes.get_all_products (Shop.query_request "name" "Hat") Shop.two_products
  = (Return {| body := Json (JArr [Product.serialize (Product.with_id 1 Shop.hat);
                                   Product.serialize (Product.with_id 2 Shop.bread)]);
               status_code := 200; response_headers := ∅ |},
     Shop.two_products)
  ∧ Product.name (Product.with_id 2 Shop.bread) ≠ JStr "Hat"
  ∧ routes.get_products_by_name (Shop.query_request "name" "Hat") Shop.two_products
    = (Return {| body := Json (JArr [Product.serialize (Product.with_id 1 Shop.hat)]);
                 status_code := 200; response_headers := ∅ |},
       Shop.two_products).
Proof. split_and!; [by vm_compute | done | by vm_compute]. Qed.

(** C2: on the same store, GET /products?category=FOOD answers 200 with both
    products, the hat of category CLOTHS included, and
    GET /products?category=MACHINE, which names no member of the enumeration,
    answers 200 as well, not 400: the handler does not read the [category]
    parameter. *)
Theorem C2_category_parameter_ignored :
  routes.get_all_products (Shop.query_request "category" "FOOD") Shop.two_products
  = (Return {| body := Json (JArr [Product.serialize (Product.with_id 1 Shop.hat);
                                   Product.serialize (Product.with_id 2 Shop.bread)]);
               status_code := 200; response_headers := ∅ |},
     Shop.two_products)
  ∧ Category_lookup "FOOD" = Some Shop.FOOD
  ∧ Product.category (Product.with_id 1 Shop.hat) ≠ Some Shop.FOOD
  ∧ Category_lookup (Category:=Shop.Category) "MACHINE" = None
  ∧ http_status
      (routes.get_all_products (Shop.query_request "category" "MACHINE")
         Shop.two_products).1 = 200.
Proof. split_and!; [by vm_compute | done | done | done | by vm_compute]. Qed.

(** C3 on the serialised hat, which is accepted, and on the same payload
    without its price, which is refused. *)
Lemma C3_deserialize_validation_witness :
  (Product.rejected (Category:=Shop.Category) (Product.serialize Shop.hat) = false
   ∧ ∃ d product,
       Product.serialize Shop.hat = JObj d
       ∧ Product.deserialize Product.new (Product.serialize Shop.hat) = Ok product
       ∧ Product.populated_from d product)
  ∧ (Product.rejected (Category:=Shop.Category)
       (JObj {[ "name" := JStr "Hat"; "available" := JBool true;
                "category" := JStr "CLOTHS" ]}) = true
     ∧ fails (Product.deserialize Shop.hat
                (JObj {[ "name" := JStr "Hat"; "available" := JBool true;
                         "category" := JStr "CLOTHS" ]}))).
Proof.
  split.
  - split; [by vm_compute|].
    apply (C3_deserialize_validation Product.new (Product.serialize Shop.hat)).
    by vm_compute.
  - split; [by vm_compute|].
    apply (C3_deserialize_validation Shop.hat). by vm_compute.
Defined.

(** C4 on the hat. *)
Lemma C4_round_trip_witness :
  Product.fully_formed Shop.hat = true
  ∧ ∃ product',
      Product.deserialize Product.new (Product.serialize Shop.hat) = Ok product'
      ∧ Product.name product' = Product.name Shop.hat
      ∧ Product.description product' = Product.description Shop.hat
      ∧ Product.price product' = Product.price Shop.hat
      ∧ Product.available product' = Product.available Shop.hat
      ∧ Product.category product' = Product.category Shop.hat
      ∧ Product.id product' = None.
Proof.
  split; [reflexivity|].
  apply (C4_round_trip Product.new Shop.hat). reflexivity.
Defined.

(** C5 on the hat before it was stored (no id), and on id 7, which the store
    does not hold. *)
Lemma C5_update_requires_id_witness :
  (Product.id Shop.hat = None
   ∧ Product.update Shop.hat Shop.two_products = Raised UpdateWithEmptyId
   ∧ routes.update Shop.hat Shop.two_products
     = (Uncaught UpdateWithEmptyId, Shop.two_products)
   ∧ http_status (Uncaught UpdateWithEmptyId) = 400)
  ∧ (Product.id (Product.with_id 7 Shop.hat) = Some 7
     ∧ Product.find 7 Shop.two_products = None
     ∧ Product.update (Product.with_id 7 Shop.hat) Shop.two_products
       = Ok Shop.two_products)
  ∧ (headers (Shop.json_request (Product.serialize Shop.hat)) !! "Content-Type"
     = Some "application/json"
     ∧ routes.update_products Shop.url_for
         (Shop.json_request (Product.serialize Shop.hat)) 7 Shop.two_products
       = (Abort 404 None, Shop.two_products)).
Proof.
  pose proof (C5_update_requires_id Shop.url_for Shop.hat Shop.two_products
                (Shop.json_request (Product.serialize Shop.hat)) 7)
    as (Hnull & _ & Hhandler).
  pose proof (C5_update_requires_id Shop.url_for (Product.with_id 7 Shop.hat)
                Shop.two_products
                (Shop.json_request (Product.serialize Shop.hat)) 7)
    as (_ & Habsent & _).
  split_and!.
  - reflexivity.
  - apply Hnull. reflexivity.
  - apply Hnull. reflexivity.
  - reflexivity.
  - reflexivity.
  - reflexivity.
  - apply Habsent; reflexivity.
  - reflexivity.
  - apply Hhandler; reflexivity.
Defined.

(** C6 on the empty store and on the store with two products. *)
Lemma C6_list_all_witness :
  (Product.all (Product.empty_store (Decimal:=Z) (Category:=Shop.Category)) = []
   ∧ routes.get_all_products (Shop.query_request "name" "Hat") Product.empty_store
     = (Abort 404 None, Product.empty_store))
  ∧ (Product.all Shop.two_products ≠ []
     ∧ routes.get_all_products (Shop.query_request "name" "Hat") Shop.two_products
       = (Return {| body := Json (JArr (Product.serialize
                                          <$> Product.all Shop.two_products));
                    status_code := 200; response_headers := ∅ |},
          Shop.two_products)).
Proof.
  split; (split; [done|]).
  - apply (C6_list_all (Shop.query_request "name" "Hat") Product.empty_store).
    reflexivity.
  - apply (C6_list_all (Shop.query_request "name" "Hat") Shop.two_products).
    done.
Defined.

(** C7 on a request without headers, on a form post, and on a JSON post. *)
Lemma C7_content_type_witness :
  (headers (Shop.query_request "name" "Hat") !! "Content-Type" = None
   ∧ routes.create_products (Shop.query_request "name" "Hat") Shop.two_products
     = (Abort 415 (Some "Content-Type must be application/json"),
        Shop.two_products))
  ∧ (headers Shop.form_request !! "Content-Type" = Some "plain/text"
     ∧ routes.update_products Shop.url_for Shop.form_request 1 Shop.two_products
       = (Abort 415 (Some "Content-Type must be application/json"),
          Shop.two_products))
  ∧ (headers (Shop.json_request (Product.serialize Shop.hat)) !! "Content-Type"
     = Some "application/json"
     ∧ routes.check_content_type (Shop.json_request (Product.serialize Shop.hat))
         "application/json" Shop.two_products
       = (Return (), Shop.two_products)).
Proof.
  split; [|split]; (split; [reflexivity|]).
  - apply (C7_content_type Shop.url_for (Shop.query_request "name" "Hat") 1
             Shop.two_products).
    left. reflexivity.
  - apply (C7_content_type Shop.url_for Shop.form_request 1 Shop.two_products).
    right. exists "plain/text". split; [reflexivity | discriminate].
  - apply (C7_content_type Shop.url_for
             (Shop.json_request (Product.serialize Shop.hat)) 1
             Shop.two_products).
    reflexivity.
Defined.

(** C8 on the store with two products: id 1 is deleted, then missing; id 7
    was never there. *)
Lemma C8_delete_witness :
  (is_Some (Product.find 1 Shop.two_products)
   ∧ ∃ db',
       routes.delete_product Shop.url_for (Shop.query_request "name" "Hat") 1
         Shop.two_products
       = (Return {| body := Text ""; status_code := 204;
                    response_headers :=
                      {[ "Location" := Shop.url_for "update_products" 1 ]} |},
          db')
       ∧ Product.find 1 db' = None
       ∧ Product.all db'
         = filter (λ p, Product.id p ≠ Some 1) (Product.all Shop.two_products)
       ∧ routes.delete_product Shop.url_for Shop.form_request 1 db'
         = (Abort 404 None, db'))
  ∧ (Product.find 7 Shop.two_products = None
     ∧ routes.delete_product Shop.url_for (Shop.query_request "name" "Hat") 7
         Shop.two_products
       = (Abort 404 None, Shop.two_products)).
Proof.
  split; split.
  - by eexists.
  - apply (C8_delete Shop.url_for (Shop.query_request "name" "Hat")
             Shop.form_request 1 Shop.two_products).
    by eexists.
  - reflexivity.
  - apply (C8_delete Shop.url_for (Shop.query_request "name" "Hat")
             Shop.form_request 7 Shop.two_products).
    reflexivity.
Defined.

(** C9 on the store with two products: the hat, id 1, gets the description
    "unknown"; id 7 is not there. *)
Lemma C9_update_witness :
  headers (Shop.json_request (Product.serialize Shop.hat_unknown)) !! "Content-Type"
  = Some "application/json"
  ∧ (Product.find 7 Shop.two_products = None
     ∧ routes.update_products Shop.url_for
         (Shop.json_request (Product.serialize Shop.hat_unknown)) 7
         Shop.two_products
       = (Abort 404 None, Shop.two_products))
  ∧ (Product.find 1 Shop.two_products = Some (Product.with_id 1 Shop.hat)
     ∧ Product.deserialize (Product.with_id 1 Shop.hat)
         (Product.serialize Shop.hat_unknown) = Ok Shop.hat_unknown
     ∧ ∃ d db',
         Product.serialize Shop.hat_unknown = JObj d
         ∧ routes.update_products Shop.url_for
             (Shop.json_request (Product.serialize Shop.hat_unknown)) 1
             Shop.two_products
           = (Return {| body := Json (Product.serialize Shop.hat_unknown);
                        status_code := 200;
                        response_headers :=
                          {[ "Location" := Shop.url_for "update_products" 1 ]} |},
              db')
         ∧ Product.id (Product.with_id 1 Shop.hat) = Some 1
         ∧ Product.id Shop.hat_unknown = Some 1
         ∧ Product.populated_from d Shop.hat_unknown
         ∧ Product.description Shop.hat_unknown
           = default (Product.description (Product.with_id 1 Shop.hat))
               (d !! "description")
         ∧ (∃ m, Product.serialize Shop.hat_unknown = JObj m
               ∧ m !! "id" = Some (JInt 1)
               ∧ m !! "description" = Some (Product.description Shop.hat_unknown))
         ∧ Product.find 1 db' = Some Shop.hat_unknown
         ∧ (∀ other, other ≠ 1 →
              Product.find other db' = Product.find other Shop.two_products)).
Proof.
  pose proof (C9_update Shop.url_for
                (Shop.json_request (Product.serialize Shop.hat_unknown)) 7
                Shop.two_products eq_refl) as [Hmissing _].
  pose proof (C9_update Shop.url_for
                (Shop.json_request (Product.serialize Shop.hat_unknown)) 1
                Shop.two_products eq_refl) as [_ Hfound].
  split; [reflexivity|]. split; split.
  - reflexivity.
  - apply Hmissing. reflexivity.
  - reflexivity.
  - split; [by vm_compute|].
    apply (Hfound (Product.with_id 1 Shop.hat) Shop.hat_unknown);
      [reflexivity | by vm_compute].
Defined.

(** C10 on a JSON post of the hat to the store with two products: the new
    row gets id 3. *)
Lemma C10_create_location_witness :
  http_status
    (routes.create_products (Shop.json_request (Product.serialize Shop.hat))
       Shop.two_products).1 = 201
  ∧ ∃ created response,
      routes.create_products (Shop.json_request (Product.serialize Shop.hat))
        Shop.two_products
      = (Return response,
         {| Product.rows := Product.all Shop.two_products ++ [created];
            Product.sequence := Product.sequence Shop.two_products + 1 |})
      ∧ status_code response = 201
      ∧ response_headers response = {[ "Location" := "/" ]}
      ∧ response_headers response !! "Location" = Some "/"
      ∧ Product.id created = Some (Product.sequence Shop.two_products + 1)
      ∧ body response = Json (Product.serialize created)
      ∧ (∃ d, Product.serialize created = JObj d
            ∧ d !! "id" = Some (JInt (Product.sequence Shop.two_products + 1))).
Proof.
  split; [by vm_compute|].
  apply (C10_create_location
           (Shop.json_request (Product.serialize Shop.hat)) Shop.two_products).
  by vm_compute.
Defined.

(** * More of the service *)

(** ** The shape of the store *)
Section store_shape.
Context {Decimal Category : Type} `{!DecimalType Decimal, !CategoryEnum Category}.
Implicit Types (self product : Product.t Decimal Category).
Implicit Types (db : Product.Store Decimal Category).
Implicit Types (i j : Z).

Lemma id_in_range_true db product :
  Product.id_in_range db product = true ↔
  ∃ i, Product.id product = Some i ∧ 1 ≤ i ≤ Product.sequence db.
Proof.
  unfold Product.id_in_range. destruct (Product.id product) as [i|].
  - rewrite bool_decide_eq_true. split; [by eauto|]. by intros (? & [= <-] & ?).
  - split; [done|]. by intros (? & [=] & _).
Qed.

Lemma well_formed_true db :
  Product.well_formed db = true ↔
  0 ≤ Product.sequence db
  ∧ Forall (λ p, Product.id_in_range db p = true) (Product.rows db)
  ∧ NoDup (Product.id <$> Product.rows db).
Proof.
  unfold Product.well_formed.
  rewrite !andb_true_iff, !bool_decide_eq_true.
  split; [intros [[? ?] ?] | intros (? & ? & ?)]; by split_and!.
Qed.

(** In a well-formed store an id outside [1 .. sequence] is not found. *)
Lemma find_out_of_range i db :
  Product.well_formed db = true →
  ¬ (1 ≤ i ≤ Product.sequence db) →
  Product.find i db = None.
Proof.
  intros (_ & Hrange & _)%well_formed_true Hi. apply find_None.
  intros p Hp Hid. rewrite Forall_forall in Hrange.
  apply Hrange, id_in_range_true in Hp as (k & Hk & ?). congruence.
Qed.

(** [create] keeps every row that was found, and the row it adds is found
    under the new id. *)
Lemma find_create_old i self db product :
  Product.find i db = Some product →
  Product.find i (Product.create self db).2 = Some product.
Proof.
  unfold Product.find. simpl.
  destruct (list_find _ (Product.rows db)) as [[k p]|] eqn:Hfind; intros [= <-].
  by rewrite (list_find_app_l _ _ _ _ _ Hfind).
Qed.

Lemma find_create_new self db :
  Product.well_formed db = true →
  Product.find (Product.sequence db + 1) (Product.create self db).2
  = Some (Product.with_id (Product.sequence db + 1) self).
Proof.
  intros Hwf. pose proof (find_out_of_range (Product.sequence db + 1) db Hwf) as Hnone.
  unfold Product.find in *. simpl.
  rewrite list_find_app_r by (eapply (proj1 (fmap_None _ _)), Hnone; lia).
  simpl. unfold Product.has_id. simpl.
  by rewrite decide_True by by apply bool_decide_eq_true.
Qed.

Lemma create_well_formed self db :
  Product.well_formed db = true →
  Product.well_formed (Product.create self db).2 = true.
Proof.
  rewrite !well_formed_true. simpl. intros (Hseq & Hrange & Hdup).
  rewrite Forall_app, fmap_app, NoDup_app. simpl. split_and!.
  - lia.
  - eapply Forall_impl; [exact Hrange|]. intros p. rewrite !id_in_range_true. simpl.
    intros (k & ? & ?). exists k. split; [done|lia].
  - apply Forall_singleton, id_in_range_true. simpl. eexists. split; [done|lia].
  - done.
  - intros o [p [-> Hp]]%list_elem_of_fmap. rewrite Forall_forall in Hrange.
    apply Hrange, id_in_range_true in Hp as (k & -> & ?).
    intros [= ->]%list_elem_of_singleton. lia.
  - apply NoDup_singleton.
Qed.

Lemma update_well_formed self db db' :
  Product.update self db = Ok db' →
  Product.well_formed db = true → Product.well_formed db' = true.
Proof.
  unfold Product.update. destruct (Product.id self) as [i|] eqn:Hid; [|done].
  intros [= <-]. rewrite !well_formed_true. simpl. intros (Hseq & Hrange & Hdup).
  assert (∀ product,
            Product.id (if Product.has_id i product then self else product)
            = Product.id product) as Hsame.
  { intros p. destruct (Product.has_id i p) eqn:Hp; [|done].
    apply has_id_true in Hp. congruence. }
  split_and!.
  - done.
  - apply Forall_fmap. eapply Forall_impl; [exact Hrange|]. intros p. simpl.
    unfold Product.id_in_range. simpl. by rewrite Hsame.
  - rewrite <-list_fmap_compose.
    erewrite list_fmap_ext; [exact Hdup|]. intros k p _. apply Hsame.
Qed.

Lemma delete_well_formed self db :
  Product.well_formed db = true →
  Product.well_formed (Product.delete self db) = true.
Proof.
  unfold Product.delete. destruct (Product.id self) as [i|]; [|done].
  rewrite !well_formed_true. simpl. intros (Hseq & Hrange & Hdup). split_and!.
  - done.
  - rewrite Forall_forall in *. intros p [_ Hp]%list_elem_of_filter. by apply Hrange.
  - eapply sublist_NoDup; [exact Hdup|]. apply fmap_sublist, sublist_filter.
Qed.

(** Looking for the first match in a filtered list, when the filter keeps
    every match. *)
Lemma list_find_filter_snd {A} (P Q : A → Prop)
    `{!∀ x, Decision (P x)} `{!∀ x, Decision (Q x)} (l : list A) :
  (∀ x, P x → Q x) →
  snd <$> list_find P (filter Q l) = snd <$> list_find P l.
Proof.
  intros HPQ. induction l as [|x l IH]; [done|].
  rewrite filter_cons. simpl. destruct (decide (Q x)) as [HQ|HQ]; simpl.
  - destruct (decide (P x)); [done|].
    rewrite <-!option_fmap_compose. apply IH.
  - rewrite decide_False by naive_solver.
    rewrite <-!option_fmap_compose. apply IH.
Qed.

(** [delete] keeps every row that carries another id. *)
Lemma find_delete_ne i j self db :
  Product.id self = Some i → j ≠ i →
  Product.find j (Product.delete self db) = Product.find j db.
Proof.
  intros Hid Hne. unfold Product.find, Product.delete. rewrite Hid. simpl.
  apply list_find_filter_snd. intros p Hp%has_id_true.
  apply has_id_false. congruence.
Qed.

End store_shape.

(** ** The handlers, run to their answers *)
Section handler_runs.
Context {Decimal Category : Type} `{!DecimalType Decimal, !CategoryEnum Category}.
Context (url_for : string → Z → string).
Implicit Types (self product : Product.t Decimal Category).
Implicit Types (db : Product.Store Decimal Category).
Implicit Types (request : Request) (product_id : Z).

(** A payload is refused by [deserialize] exactly when the spec's conditions
    refuse it. *)
Lemma deserialize_cases self data :
  if Product.rejected (Category:=Category) data
  then fails (Product.deserialize self data)
  else ∃ product, Product.deserialize self data = Ok product.
Proof.
  destruct (Product.rejected data) eqn:Hrej.
  - destruct (Product.deserialize self data) as [product|e] eqn:Hd; [|by exists e].
    destruct data as [| | | | |d]; try done.
    apply deserialize_Ok in Hd as (n & v & b & vc & c & Hn & Hv & Hb & Hvc & Hc & _).
    assert (Product.rejected (Category:=Category) (JObj d) = false) as Hacc
      by (apply rejected_false; by eexists n, v, b, vc, c).
    congruence.
  - destruct data as [| | | | |d]; try done.
    apply rejected_false in Hrej as (n & v & b & vc & c & Hn & Hv & Hb & Hvc & Hc).
    eexists. apply deserialize_Ok. by eexists n, v, b, vc, c.
Qed.

(** [deserialize] never touches the id. *)
Lemma deserialize_id self data product :
  Product.deserialize self data = Ok product → Product.id product = Product.id self.
Proof.
  destruct data as [| | | | |d]; try done.
  by intros (n & v & b & vc & c & _ & _ & _ & _ & _ & ->)%deserialize_Ok.
Qed.

(** The round trip, as an equation: the fields of the product, the id of the
    receiving entity. *)
Lemma deserialize_serialize self product :
  Product.fully_formed product = true →
  Product.deserialize self (Product.serialize product)
  = Ok {| Product.id := Product.id self; Product.name := Product.name product;
          Product.description := Product.description product;
          Product.price := Product.price product;
          Product.available := Product.available product;
          Product.category := Product.category product |}.
Proof.
  unfold Product.fully_formed. rewrite !andb_true_iff, !bool_decide_eq_true.
  intros [[[p Hp] [a Ha]] [c Hc]].
  apply deserialize_Ok. unfold Product.serialize. rewrite Hp, Ha, Hc. simpl.
  eexists (Product.name product), (JStr (Decimal_str p)), a,
    (JStr (Category_name c)), c.
  split_and!; [by simplify_map_eq..| |].
  - apply category_of_Some. eexists. split; [done|]. apply Category_lookup_name.
  - simplify_map_eq. by rewrite Decimal_new_str.
Qed.

Lemma create_products_run request db :
  headers request !! "Content-Type" = Some "application/json" →
  routes.create_products request db
  = match Product.deserialize Product.new (get_json request) with
    | Ok product =>
        (Return {| body := Json (Product.serialize
                                   (Product.with_id (Product.sequence db + 1) product));
                   status_code := 201;
                   response_headers := {[ "Location" := "/" ]} |},
         (Product.create product db).2)
    | Raised e => (Uncaught e, db)
    end.
Proof.
  intros Hct. unfold routes.create_products, mbind.
  erewrite bind_Return by by apply check_content_type_accepts.
  unfold routes.Handler_bind, routes.call, routes.create.
  by destruct (Product.deserialize _ _).
Qed.

Lemma update_products_run request product_id db :
  headers request !! "Content-Type" = Some "application/json" →
  routes.update_products url_for request product_id db
  = match Product.find product_id db with
    | None => (Abort 404 None, db)
    | Some product =>
        match Product.deserialize product (get_json request) with
        | Ok updated =>
            match Product.update updated db with
            | Ok db' =>
                (Return {| body := Json (Product.serialize updated);
                           status_code := 200;
                           response_headers :=
                             {[ "Location" := url_for "update_products" product_id ]} |},
                 db')
            | Raised e => (Uncaught e, db)
            end
        | Raised e => (Uncaught e, db)
        end
    end.
Proof.
  intros Hct. unfold routes.update_products, mbind.
  erewrite bind_Return by by apply check_content_type_accepts.
  erewrite bind_Return by reflexivity.
  destruct (Product.find product_id db) as [product|]; [|done].
  unfold routes.Handler_bind, routes.call, routes.update.
  destruct (Product.deserialize _ _) as [updated|]; [|done].
  by destruct (Product.update updated db).
Qed.

Lemma delete_product_run request product_id db :
  routes.delete_product url_for request product_id db
  = match Product.find product_id db with
    | None => (Abort 404 None, db)
    | Some product =>
        (Return {| body := Text ""; status_code := 204;
                   response_headers :=
                     {[ "Location" := url_for "update_products" product_id ]} |},
         Product.delete product db)
    end.
Proof.
  unfold routes.delete_product, mbind. erewrite bind_Return by reflexivity.
  by destruct (Product.find product_id db).
Qed.

Lemma get_products_run request product_id db :
  routes.get_products url_for request product_id db
  = (Return
       match Product.find product_id db with
       | None =>
           {| body := Json (JStr "Product not found"); status_code := 404;
              response_headers :=
                {[ "Location" := url_for "get_products" product_id ]} |}
       | Some product =>
           {| body := Json (Product.serialize product); status_code := 200;
              response_headers :=
                {[ "Location" := url_for "get_products" product_id ]} |}
       end, db).
Proof.
  unfold routes.get_products, mbind. erewrite bind_Return by reflexivity.
  by destruct (Product.find product_id db).
Qed.


End handler_runs.

(** ** Reading *)
Section reading.
Context {Decimal Category : Type} `{!DecimalType Decimal, !CategoryEnum Category}.
Context (url_for : string → Z → string).
Implicit Types (self product : Product.t Decimal Category).
Implicit Types (db : Product.Store Decimal Category).
Implicit Types (request : Request) (product_id : Z).




(** X4: GET /products/<id> always returns a response, with the URL of the
    product in its Location header.  The status is 200, with the
    serialisation of a product of the store that carries the id, exactly when
    the store holds a product with that id; otherwise the status is 404 and
    the body the string "Product not found".  The store is left as it was. *)
Theorem X4_get_products request product_id db :
  ∃ response,
    routes.get_products url_for request product_id db = (Return response, db)
    ∧ response_headers response
      = {[ "Location" := url_for "get_products" product_id ]}
    ∧ (status_code response = 200 ↔
       ∃ product, product ∈ Product.all db ∧ Product.id product = Some product_id)
    ∧ (status_code response = 200 →
       ∃ product, product ∈ Product.all db
         ∧ Product.id product = Some product_id
         ∧ body response = Json (Product.serialize product))
    ∧ (status_code response ≠ 200 →
       status_code response = 404
       ∧ body response = Json (JStr "Product not found")).
Proof.
  rewrite get_products_run. eexists. split; [reflexivity|].
  destruct (Product.find product_id db) as [product|] eqn:Hfind; simpl.
  - apply find_Some in Hfind as [Hid Hin].
    split_and!; [done | split; [by eauto|done] | by eauto | done].
  - split_and!; try done.
    split; [done|]. intros (product & Hin & Hid). exfalso.
    by eapply (proj1 (find_None product_id db) Hfind).
Qed.


End reading.

(** ** Writing *)
Section writing.
Context {Decimal Category : Type} `{!DecimalType Decimal, !CategoryEnum Category}.
Context (url_for : string → Z → string).
Implicit Types (self product : Product.t Decimal Category).
Implicit Types (db : Product.Store Decimal Category).
Implicit Types (request : Request) (product_id : Z).

Lemma create_products_refused request db :
  headers request !! "Content-Type" ≠ Some "application/json" →
  routes.create_products request db
  = (Abort 415 (Some "Content-Type must be application/json"), db).
Proof.
  intros Hct. unfold routes.create_products, mbind.
  by erewrite bind_Abort by by apply check_content_type_refuses.
Qed.

Lemma update_products_refused request product_id db :
  headers request !! "Content-Type" ≠ Some "application/json" →
  routes.update_products url_for request product_id db
  = (Abort 415 (Some "Content-Type must be application/json"), db).
Proof.
  intros Hct. unfold routes.update_products, mbind.
  by erewrite bind_Abort by by apply check_content_type_refuses.
Qed.

(** An entity read from a found row and a payload is always accepted by
    [update]. *)
Lemma update_found product_id db product updated data :
  Product.find product_id db = Some product →
  Product.deserialize product data = Ok updated →
  Product.id updated = Some product_id
  ∧ ∃ db', Product.update updated db = Ok db'.
Proof.
  intros [Hid _]%find_Some Hid'%deserialize_id.
  rewrite Hid in Hid'. split; [done|]. apply update_Ok. by rewrite Hid'.
Qed.

(** X6: the status of POST /products is decided in this order: 415 unless
    the Content-Type is exactly application/json, then 400 when the body is
    one [deserialize] refuses, and 201 otherwise.  Unless the status is 201
    the store is left as it was. *)
Theorem X6_create_products_status request db :
  http_status (routes.create_products request db).1
  = (if bool_decide (headers request !! "Content-Type" = Some "application/json")
     then if Product.rejected (Category:=Category) (get_json request)
          then 400 else 201
     else 415)
  ∧ (http_status (routes.create_products request db).1 ≠ 201 →
     (routes.create_products request db).2 = db).
Proof.
  case_bool_decide as Hct.
  - rewrite create_products_run by done.
    pose proof (deserialize_cases Product.new (get_json request)) as Hcases.
    destruct (Product.rejected (get_json request)).
    + by destruct Hcases as [e ->].
    + by destruct Hcases as [product ->].
  - by rewrite create_products_refused.
Qed.

(** X7: the status of PUT /products/<id> is decided in this order: 415
    unless the Content-Type is exactly application/json, then 404 when no
    product has the id, then 400 when the body is one [deserialize] refuses,
    and 200 otherwise.  Unless the status is 200 the store is left as it
    was. *)
Theorem X7_update_products_status request product_id db :
  http_status (routes.update_products url_for request product_id db).1
  = (if bool_decide (headers request !! "Content-Type" = Some "application/json")
     then match Product.find product_id db with
          | None => 404
          | Some _ =>
              if Product.rejected (Category:=Category) (get_json request)
              then 400 else 200
          end
     else 415)
  ∧ (http_status (routes.update_products url_for request product_id db).1 ≠ 200 →
     (routes.update_products url_for request product_id db).2 = db).
Proof.
  case_bool_decide as Hct.
  - rewrite update_products_run by done.
    destruct (Product.find product_id db) as [product|] eqn:Hfind; [|done].
    pose proof (deserialize_cases product (get_json request)) as Hcases.
    destruct (Product.rejected (get_json request)).
    + by destruct Hcases as [e ->].
    + destruct Hcases as [updated Hupdated]. rewrite Hupdated.
      destruct (update_found _ _ _ _ _ Hfind Hupdated) as (_ & db' & ->). done.
  - by rewrite update_products_refused.
Qed.

(** X8: POST, PUT and DELETE keep the store in shape, whatever the request
    and whatever the answer: ids stay unique, and every row carries an id
    between 1 and the last id handed out. *)
Theorem X8_handlers_keep_the_store_well_formed request product_id db :
  Product.well_formed db = true →
  Product.well_formed (routes.create_products request db).2 = true
  ∧ Product.well_formed (routes.update_products url_for request product_id db).2 = true
  ∧ Product.well_formed (routes.delete_product url_for request product_id db).2 = true.
Proof.
  intros Hwf. split_and!.
  - destruct (decide (headers request !! "Content-Type" = Some "application/json"))
      as [Hct|Hct]; [|by rewrite create_products_refused].
    rewrite create_products_run by done.
    destruct (Product.deserialize _ _); [|done]. by apply create_well_formed.
  - destruct (decide (headers request !! "Content-Type" = Some "application/json"))
      as [Hct|Hct]; [|by rewrite update_products_refused].
    rewrite update_products_run by done.
    destruct (Product.find product_id db); [|done].
    destruct (Product.deserialize _ _) as [updated|]; [|done].
    destruct (Product.update updated db) as [db'|] eqn:Hupdate; [|done].
    by eapply update_well_formed.
  - rewrite delete_product_run.
    destruct (Product.find product_id db); [|done]. by apply delete_well_formed.
Qed.

(** X9: POST /products never disturbs a product the store already holds:
    whatever the request, a product found under an id before is found under
    it after, and the rows of before are the first rows of after. *)
Theorem X9_create_products_keeps_rows request db i product :
  Product.find i db = Some product →
  Product.find i (routes.create_products request db).2 = Some product
  ∧ Product.all db `prefix_of` Product.all (routes.create_products request db).2.
Proof.
  intros Hfind.
  destruct (decide (headers request !! "Content-Type" = Some "application/json"))
    as [Hct|Hct]; [|by rewrite create_products_refused].
  rewrite create_products_run by done.
  destruct (Product.deserialize _ _); [|done]. split.
  - by apply find_create_old.
  - by eexists.
Qed.

(** X10: PUT and DELETE on /products/<id> touch no other product: whatever
    the request and the answer, every other id is found afterwards as it was
    before. *)
Theorem X10_update_and_delete_touch_one_id request product_id db other :
  other ≠ product_id →
  Product.find other (routes.update_products url_for request product_id db).2
  = Product.find other db
  ∧ Product.find other (routes.delete_product url_for request product_id db).2
    = Product.find other db.
Proof.
  intros Hother. split.
  - destruct (decide (headers request !! "Content-Type" = Some "application/json"))
      as [Hct|Hct]; [|by rewrite update_products_refused].
    rewrite update_products_run by done.
    destruct (Product.find product_id db) as [product|] eqn:Hfind; [|done].
    destruct (Product.deserialize _ _) as [updated|] eqn:Hupdated; [|done].
    destruct (update_found _ _ _ _ _ Hfind Hupdated) as (Hid & db' & Hdb').
    rewrite Hdb'. by eapply find_update_ne.
  - rewrite delete_product_run.
    destruct (Product.find product_id db) as [product|] eqn:Hfind; [|done].
    apply find_Some in Hfind as [Hid _]. by eapply find_delete_ne.
Qed.

End writing.

(** ** One request after another *)
Section sequences.
Context {Decimal Category : Type} `{!DecimalType Decimal, !CategoryEnum Category}.
Context (url_for : string → Z → string).
Implicit Types (self product : Product.t Decimal Category).
Implicit Types (db : Product.Store Decimal Category).
Implicit Types (request : Request) (product_id : Z).

(** A POST whose body is the serialisation of a fully formed product stores
    that product under the next id and answers with its serialisation. *)
Lemma post_serialized_run request db product :
  headers request !! "Content-Type" = Some "application/json" →
  get_json request = Product.serialize product →
  Product.fully_formed product = true →
  routes.create_products request db
  = (Return {| body := Json (Product.serialize
                               (Product.with_id (Product.sequence db + 1) product));
               status_code := 201;
               response_headers := {[ "Location" := "/" ]} |},
     {| Product.rows :=
          Product.all db ++ [Product.with_id (Product.sequence db + 1) product];
        Product.sequence := Product.sequence db + 1 |}).
Proof.
  intros Hct Hbody Hformed. rewrite create_products_run by done.
  by rewrite Hbody, deserialize_serialize.
Qed.

Lemma create_products_Return request db response db' :
  routes.create_products request db = (Return response, db') →
  ∃ product,
    response = {| body := Json (Product.serialize
                                  (Product.with_id (Product.sequence db + 1) product));
                  status_code := 201;
                  response_headers := {[ "Location" := "/" ]} |}
    ∧ db' = (Product.create product db).2.
Proof.
  destruct (decide (headers request !! "Content-Type" = Some "application/json"))
    as [Hct|Hct]; [|by rewrite create_products_refused].
  rewrite create_products_run by done.
  destruct (Product.deserialize _ _) as [product|]; [|done].
  intros [= <- <-]. by exists product.
Qed.

Lemma update_products_Return request product_id db response db' :
  routes.update_products url_for request product_id db = (Return response, db') →
  ∃ updated,
    response = {| body := Json (Product.serialize updated); status_code := 200;
                  response_headers :=
                    {[ "Location" := url_for "update_products" product_id ]} |}
    ∧ Product.find product_id db' = Some updated.
Proof.
  destruct (decide (headers request !! "Content-Type" = Some "application/json"))
    as [Hct|Hct]; [|by rewrite update_products_refused].
  rewrite update_products_run by done.
  destruct (Product.find product_id db) as [product|] eqn:Hfind; [|done].
  destruct (Product.deserialize _ _) as [updated|] eqn:Hupdated; [|done].
  destruct (update_found _ _ _ _ _ Hfind Hupdated) as (Hid & db1 & Hdb1).
  rewrite Hdb1. intros [= <- <-]. exists updated. split; [done|].
  rewrite (find_update_eq product_id updated db db1 Hid Hdb1). by rewrite Hfind.
Qed.

(** X11: after a POST /products that returned a response, on a store in
    shape, GET /products/<id> with the id the store assigned answers 200 with
    the body the POST answered with. *)
Theorem X11_post_then_get request request' db response db' :
  Product.well_formed db = true →
  routes.create_products request db = (Return response, db') →
  routes.get_products url_for request' (Product.sequence db + 1) db'
  = (Return {| body := body response; status_code := 200;
               response_headers :=
                 {[ "Location" := url_for "get_products" (Product.sequence db + 1) ]} |},
     db').
Proof.
  intros Hwf (product & -> & ->)%create_products_Return.
  by rewrite get_products_run, find_create_new.
Qed.

(** X12: a POST /products whose Content-Type is application/json and whose
    body is the serialisation of a fully formed product answers 201 with the
    serialisation of that very product under the next id, and appends it to
    the store. *)
Theorem X12_post_of_a_serialised_product request db product :
  headers request !! "Content-Type" = Some "application/json" →
  get_json request = Product.serialize product →
  Product.fully_formed product = true →
  routes.create_products request db
  = (Return {| body := Json (Product.serialize
                               (Product.with_id (Product.sequence db + 1) product));
               status_code := 201;
               response_headers := {[ "Location" := "/" ]} |},
     {| Product.rows :=
          Product.all db ++ [Product.with_id (Product.sequence db + 1) product];
        Product.sequence := Product.sequence db + 1 |}).
Proof. apply post_serialized_run. Qed.

(** X13: after a PUT /products/<id> that returned a response,
    GET /products/<id> answers 200 with the body the PUT answered with. *)
Theorem X13_put_then_get request request' product_id db response db' :
  routes.update_products url_for request product_id db = (Return response, db') →
  routes.get_products url_for request' product_id db'
  = (Return {| body := body response; status_code := 200;
               response_headers :=
                 {[ "Location" := url_for "get_products" product_id ]} |},
     db').
Proof.
  intros (updated & -> & Hfind)%update_products_Return.
  by rewrite get_products_run, Hfind.
Qed.

(** X14: after a DELETE /products/<id> that returned a response, the id is
    gone for every handler: GET answers 404 with "Product not found", and a
    PUT with the right content type answers 404, whatever its body. *)
Theorem X14_delete_then_get_or_put request get put product_id db response db' :
  routes.delete_product url_for request product_id db = (Return response, db') →
  headers put !! "Content-Type" = Some "application/json" →
  routes.get_products url_for get product_id db'
  = (Return {| body := Json (JStr "Product not found"); status_code := 404;
               response_headers :=
                 {[ "Location" := url_for "get_products" product_id ]} |},
     db')
  ∧ routes.update_products url_for put product_id db' = (Abort 404 None, db').
Proof.
  rewrite delete_product_run.
  destruct (Product.find product_id db) as [product|] eqn:Hfind; [|done].
  intros [= <- <-] Hct. apply find_Some in Hfind as [Hid _].
  rewrite get_products_run, update_products_run by done.
  by rewrite (find_delete_eq product_id product db Hid).
Qed.

(** X15: on a store in shape, an id that was never handed out (zero, a
    negative number, a number above the last id) is answered with 404 by GET,
    by PUT with the right content type, and by DELETE, and the store is left
    as it was. *)
Theorem X15_ids_never_handed_out request put product_id db :
  Product.well_formed db = true →
  ¬ (1 ≤ product_id ≤ Product.sequence db) →
  headers put !! "Content-Type" = Some "application/json" →
  routes.get_products url_for request product_id db
  = (Return {| body := Json (JStr "Product not found"); status_code := 404;
               response_headers :=
                 {[ "Location" := url_for "get_products" product_id ]} |},
     db)
  ∧ routes.update_products url_for put product_id db = (Abort 404 None, db)
  ∧ routes.delete_product url_for request product_id db = (Abort 404 None, db).
Proof.
  intros Hwf Hid Hct.
  rewrite get_products_run, delete_product_run, update_products_run by done.
  by rewrite (find_out_of_range product_id db Hwf Hid).
Qed.

(** The round trip with one entry of the payload replaced: a new
    description. *)
Lemma deserialize_new_description self product m v :
  Product.fully_formed product = true →
  Product.serialize product = JObj m →
  Product.deserialize self (JObj (<["description" := v]> m))
  = Ok {| Product.id := Product.id self; Product.name := Product.name product;
          Product.description := v;
          Product.price := Product.price product;
          Product.available := Product.available product;
          Product.category := Product.category product |}.
Proof.
  unfold Product.fully_formed. rewrite !andb_true_iff, !bool_decide_eq_true.
  intros [[[p Hp] [a Ha]] [c Hc]]. unfold Product.serialize. intros [= <-].
  apply deserialize_Ok. rewrite Hp, Ha, Hc. simpl.
  eexists (Product.name product), (JStr (Decimal_str p)), a,
    (JStr (Category_name c)), c.
  split_and!; [by simplify_map_eq..| |].
  - apply category_of_Some. eexists. split; [done|]. apply Category_lookup_name.
  - simplify_map_eq. by rewrite Decimal_new_str.
Qed.

(** X16: on a store in shape, POST a fully formed product, then PUT the body
    that came back with its description replaced: the PUT answers 200 with
    the same product under the same id, the new description in place of the
    old one and every other field as posted, and the store holds it. *)
Theorem X16_post_then_put_description post put db product new_product text :
  Product.well_formed db = true →
  Product.fully_formed product = true →
  headers post !! "Content-Type" = Some "application/json" →
  get_json post = Product.serialize product →
  Product.serialize (Product.with_id (Product.sequence db + 1) product)
  = JObj new_product →
  headers put !! "Content-Type" = Some "application/json" →
  get_json put = JObj (<["description" := JStr text]> new_product) →
  ∃ db1 db2,
    routes.create_products post db
    = (Return {| body := Json (JObj new_product); status_code := 201;
                 response_headers := {[ "Location" := "/" ]} |}, db1)
    ∧ routes.update_products url_for put (Product.sequence db + 1) db1
      = (Return {| body := Json (Product.serialize
                     {| Product.id := Some (Product.sequence db + 1);
                        Product.name := Product.name product;
                        Product.description := JStr text;
                        Product.price := Product.price product;
                        Product.available := Product.available product;
                        Product.category := Product.category product |});
                   status_code := 200;
                   response_headers :=
                     {[ "Location" :=
                          url_for "update_products" (Product.sequence db + 1) ]} |},
         db2)
    ∧ Product.find (Product.sequence db + 1) db2
      = Some {| Product.id := Some (Product.sequence db + 1);
                Product.name := Product.name product;
                Product.description := JStr text;
                Product.price := Product.price product;
                Product.available := Product.available product;
                Product.category := Product.category product |}.
Proof.
  intros Hwf Hformed Hpost Hposted Hnew Hput Hbody.
  assert (Product.find (Product.sequence db + 1)
            {| Product.rows :=
                 Product.all db
                 ++ [Product.with_id (Product.sequence db + 1) product];
               Product.sequence := Product.sequence db + 1 |}
          = Some (Product.with_id (Product.sequence db + 1) product)) as Hfind
    by exact (find_create_new product db Hwf).
  assert (Product.deserialize (Product.with_id (Product.sequence db + 1) product)
            (JObj (<["description" := JStr text]> new_product))
          = Ok {| Product.id := Some (Product.sequence db + 1);
                  Product.name := Product.name product;
                  Product.description := JStr text;
                  Product.price := Product.price product;
                  Product.available := Product.available product;
                  Product.category := Product.category product |}) as Hupdated
    by exact (deserialize_new_description
                (Product.with_id (Product.sequence db + 1) product)
                (Product.with_id (Product.sequence db + 1) product)
                new_product (JStr text) Hformed Hnew).
  destruct (update_found _ _ _ _ _ Hfind Hupdated) as (Hid & db2 & Hdb2).
  eexists _, db2. split_and!.
  - rewrite (post_serialized_run post db product) by done. by rewrite Hnew.
  - rewrite update_products_run by done.
    by rewrite Hfind, Hbody, Hupdated, Hdb2.
  - rewrite (find_update_eq _ _ _ _ Hid Hdb2). by rewrite Hfind.
Qed.

(** A filter that every element passes keeps the list. *)
Lemma filter_all {A} (P : A → Prop) `{!∀ x, Decision (P x)} (l : list A) :
  Forall P l → filter P l = l.
Proof.
  induction 1 as [|x l Hx _ IH]; [done|]. by rewrite filter_cons_True, IH.
Qed.

(** X20: on a store in shape, POST a product and DELETE the id it was
    given: the DELETE answers 204 and the rows of the store are those of
    before the POST, while the id stays used up. *)
Theorem X20_post_then_delete post request db response db' :
  Product.well_formed db = true →
  routes.create_products post db = (Return response, db') →
  routes.delete_product url_for request (Product.sequence db + 1) db'
  = (Return {| body := Text ""; status_code := 204;
               response_headers :=
                 {[ "Location" :=
                      url_for "update_products" (Product.sequence db + 1) ]} |},
     {| Product.rows := Product.all db;
        Product.sequence := Product.sequence db + 1 |}).
Proof.
  intros Hwf (product & -> & ->)%create_products_Return.
  rewrite delete_product_run, find_create_new by done.
  do 2 f_equal. unfold Product.delete. cbn [Product.id Product.with_id].
  f_equal. cbn [Product.create snd Product.rows Product.sequence].
  rewrite filter_app, filter_cons_False, filter_nil, app_nil_r.
  - apply filter_all.
    apply well_formed_true in Hwf as (_ & Hrange & _).
    eapply Forall_impl; [exact Hrange|]. intros p (k & Hk & ?)%id_in_range_true.
    apply has_id_false. rewrite Hk. intros [= ->]. lia.
  - intros Hfalse. apply has_id_false in Hfalse. by apply Hfalse.
Qed.

(** X21: a POST /products with the right content type whose body is a
    mapping without one of the keys [name], [price], [available], [category]
    answers 400 and stores nothing; so does a PUT with such a body on an id the
    store holds, which leaves the product as it was. *)
Theorem X21_body_without_a_required_key request product_id db d key :
  headers request !! "Content-Type" = Some "application/json" →
  get_json request = JObj d →
  key ∈ ["name"; "price"; "available"; "category"] →
  d !! key = None →
  (∃ e, routes.create_products request db = (Uncaught e, db)
        ∧ http_status (Uncaught e) = 400)
  ∧ (is_Some (Product.find product_id db) →
     ∃ e, routes.update_products url_for request product_id db = (Uncaught e, db)
          ∧ http_status (Uncaught e) = 400).
Proof.
  intros Hct Hbody Hkey Hmissing.
  assert (Product.rejected (Category:=Category) (JObj d) = true) as Hrej.
  { unfold Product.rejected, Product.lacks_required_key, Product.has_key.
    apply orb_true_iff. left. apply orb_true_iff. left. apply negb_true_iff.
    assert (key = "name" ∨ key = "price" ∨ key = "available" ∨ key = "category")
      as [-> | [-> | [-> | ->]]]
      by (rewrite !elem_of_cons, elem_of_nil in Hkey; tauto).
    all: rewrite Hmissing.
    all: rewrite (bool_decide_eq_false_2 (is_Some None)) by (by intros [? [=]]).
    all: by repeat case_bool_decide. }
  split.
  - rewrite create_products_run, Hbody by done.
    pose proof (deserialize_cases Product.new (JObj d)) as Hcases.
    rewrite Hrej in Hcases. destruct Hcases as [e ->]. by exists e.
  - intros [product Hfind]. rewrite update_products_run, Hfind, Hbody by done.
    pose proof (deserialize_cases product (JObj d)) as Hcases.
    rewrite Hrej in Hcases. destruct Hcases as [e ->]. by exists e.
Qed.

End sequences.

(** ** The helpers of the route tests *)
Section test_helpers.
Context {Decimal Category : Type} `{!DecimalType Decimal, !CategoryEnum Category}.
Implicit Types (product : Product.t Decimal Category).
Implicit Types (factory products : list (Product.t Decimal Category)).
Implicit Types (db : Product.Store Decimal Category).

Lemma create_loop_run factory products db :
  Forall (λ p, Product.fully_formed p = true) factory →
  test_routes.create_loop factory products db
  = Some (products
          ++ imap (λ k p, Product.with_id (Product.sequence db + 1 + Z.of_nat k) p)
               factory,
          {| Product.rows :=
               Product.all db
               ++ imap (λ k p, Product.with_id (Product.sequence db + 1 + Z.of_nat k) p)
                    factory;
             Product.sequence :=
               Product.sequence db + Z.of_nat (length factory) |}).
Proof.
  intros Hformed. revert products db.
  induction Hformed as [|test_product factory Htest _ IH]; intros products db.
  - simpl. rewrite !app_nil_r, Z.add_0_r. by destruct db.
  - cbn [test_routes.create_loop]. unfold test_routes.post.
    rewrite (post_serialized_run _ db test_product) by done.
    cbn [http_status status_code test_routes.response_json body].
    rewrite bool_decide_eq_true_2 by done.
    unfold Product.serialize at 1. rewrite lookup_insert_eq.
    cbn [mbind option_bind Product.id Product.with_id
         Product.json_of_option test_routes.set_id].
    rewrite IH. cbn [Product.all Product.rows Product.sequence].
    rewrite imap_cons, <-!app_assoc. cbn [app length].
    rewrite Z.add_0_r, Nat2Z.inj_succ.
    assert (imap (λ k p, Product.with_id (Product.sequence db + 1 + 1 + Z.of_nat k) p)
              factory
            = imap ((λ k p, Product.with_id (Product.sequence db + 1 + Z.of_nat k) p)
                    ∘ S) factory) as ->.
    { apply imap_ext. intros k p _. simpl. f_equal. lia. }
    do 2 f_equal. f_equal. lia.
Qed.

(** X17: given fully formed products, [_create_products] fails no
    assertion: it returns the products in order, the k-th (from 0) with the
    id [sequence + 1 + k], and these are the rows it appends to the store. *)
Theorem X17_create_products_helper factory db :
  Forall (λ p, Product.fully_formed p = true) factory →
  test_routes._create_products factory db
  = Some (imap (λ k p, Product.with_id (Product.sequence db + 1 + Z.of_nat k) p)
            factory,
          {| Product.rows :=
               Product.all db
               ++ imap (λ k p, Product.with_id (Product.sequence db + 1 + Z.of_nat k) p)
                    factory;
             Product.sequence :=
               Product.sequence db + Z.of_nat (length factory) |}).
Proof. intros Hformed. unfold test_routes._create_products. by rewrite create_loop_run. Qed.

Lemma get_product_count_run db :
  test_routes.get_product_count db
  = match Product.all db with
    | [] => None
    | products => Some (length products)
    end.
Proof.
  unfold test_routes.get_product_count, test_routes.get.
  rewrite get_all_products_run.
  destruct (Product.all db) as [|product products]; [done|].
  simpl. by rewrite length_fmap.
Qed.

(** X18: [get_product_count] cannot count to zero: on a store that holds no
    product its assertion on the status fails, and on any other store it
    returns the number of products. *)
Theorem X18_get_product_count db :
  test_routes.get_product_count db
  = match Product.all db with
    | [] => None
    | products => Some (length products)
    end.
Proof. apply get_product_count_run. Qed.

(** X19: after [_create_products] on at least one fully formed product, the
    count of products is the count of before plus the number of products
    made, as [test_list_all_products] expects of an empty store and ten
    products. *)
Theorem X19_count_after_create_products factory db :
  Forall (λ p, Product.fully_formed p = true) factory →
  factory ≠ [] →
  ∃ products db',
    test_routes._create_products factory db = Some (products, db')
    ∧ length products = length factory
    ∧ test_routes.get_product_count db'
      = Some (length (Product.all db) + length factory)%nat.
Proof.
  intros Hformed Hne. eexists _, _. split_and!.
  - unfold test_routes._create_products. by rewrite create_loop_run.
  - cbn [app]. by rewrite length_imap.
  - rewrite get_product_count_run. cbn [Product.all Product.rows].
    destruct factory as [|product factory]; [done|].
    destruct (_ ++ imap _ (product :: factory)) as [|p l] eqn:Hrows.
    + apply app_eq_nil in Hrows as [_ Himap]. by rewrite imap_cons in Himap.
    + by rewrite <-Hrows, length_app, length_imap.
Qed.

End test_helpers.

(** ** The further properties at work in the concrete shop *)

Example two_products_well_formed : Product.well_formed Shop.two_products = true.
Proof. by vm_compute. Qed.




(** X4 on id 1, which the store holds. *)
Lemma X4_get_products_witness :
  ∃ response,
    routes.get_products Shop.url_for Shop.form_request 1 Shop.two_products
    = (Return response, Shop.two_products)
    ∧ status_code response = 200
    ∧ ∃ product,
        product ∈ Product.all Shop.two_products
        ∧ Product.id product = Some 1
        ∧ body response = Json (Product.serialize product).
Proof.
  destruct (X4_get_products Shop.url_for Shop.form_request 1 Shop.two_products)
    as (response & Hrun & _ & Hstatus & Hbody & _).
  assert (status_code response = 200) as H200.
  { apply Hstatus. exists (Product.with_id 1 Shop.hat). split; [|reflexivity].
    apply list_elem_of_here. }
  exists response. split; [exact Hrun|]. split; [exact H200|].
  apply Hbody, H200.
Defined.

(** X6 on a form post, which is answered 415. *)
Lemma X6_create_products_status_witness :
  http_status (routes.create_products Shop.form_request Shop.two_products).1 ≠ 201
  ∧ (routes.create_products Shop.form_request Shop.two_products).2
    = Shop.two_products.
Proof.
  split; [by vm_compute|].
  apply (X6_create_products_status Shop.form_request Shop.two_products).
  by vm_compute.
Defined.

(** X7 on a JSON put to id 7, which is answered 404. *)
Lemma X7_update_products_status_witness :
  http_status (routes.update_products Shop.url_for Shop.post_hat 7
                 Shop.two_products).1 ≠ 200
  ∧ (routes.update_products Shop.url_for Shop.post_hat 7 Shop.two_products).2
    = Shop.two_products.
Proof.
  split; [by vm_compute|].
  apply (X7_update_products_status Shop.url_for Shop.post_hat 7 Shop.two_products).
  by vm_compute.
Defined.

(** X8 on the store with two products. *)
Lemma X8_handlers_keep_the_store_well_formed_witness :
  Product.well_formed Shop.two_products = true
  ∧ Product.well_formed (routes.create_products Shop.post_hat Shop.two_products).2
    = true
  ∧ Product.well_formed
      (routes.update_products Shop.url_for Shop.post_hat 1 Shop.two_products).2
    = true
  ∧ Product.well_formed
      (routes.delete_product Shop.url_for Shop.post_hat 1 Shop.two_products).2
    = true.
Proof.
  split; [by vm_compute|].
  apply (X8_handlers_keep_the_store_well_formed Shop.url_for Shop.post_hat 1
           Shop.two_products).
  by vm_compute.
Defined.

(** X9 on the hat of the store, when another hat is posted. *)
Lemma X9_create_products_keeps_rows_witness :
  Product.find 1 Shop.two_products = Some (Product.with_id 1 Shop.hat)
  ∧ Product.find 1 (routes.create_products Shop.post_hat Shop.two_products).2
    = Some (Product.with_id 1 Shop.hat)
  ∧ Product.all Shop.two_products
    `prefix_of` Product.all (routes.create_products Shop.post_hat Shop.two_products).2.
Proof.
  split; [reflexivity|].
  apply (X9_create_products_keeps_rows Shop.post_hat Shop.two_products 1).
  reflexivity.
Defined.

(** X10 on the bread, id 2, when the hat, id 1, is updated or deleted. *)
Lemma X10_update_and_delete_touch_one_id_witness :
  (2 : Z) ≠ 1
  ∧ Product.find 2 (routes.update_products Shop.url_for
                      (Shop.json_request (Product.serialize Shop.hat_unknown)) 1
                      Shop.two_products).2
    = Product.find 2 Shop.two_products
  ∧ Product.find 2 (routes.delete_product Shop.url_for
                      (Shop.json_request (Product.serialize Shop.hat_unknown)) 1
                      Shop.two_products).2
    = Product.find 2 Shop.two_products.
Proof.
  split; [lia|].
  apply (X10_update_and_delete_touch_one_id Shop.url_for
           (Shop.json_request (Product.serialize Shop.hat_unknown)) 1
           Shop.two_products 2).
  lia.
Defined.

(** X11 on a JSON post of the hat to the store with two products: the hat
    gets id 3 and is read back. *)
Lemma X11_post_then_get_witness :
  Product.well_formed Shop.two_products = true
  ∧ routes.create_products Shop.post_hat Shop.two_products
    = (Return {| body := Json (Product.serialize (Product.with_id 3 Shop.hat));
                 status_code := 201;
                 response_headers := {[ "Location" := "/" ]} |},
       {| Product.rows := Product.all Shop.two_products ++ [Product.with_id 3 Shop.hat];
          Product.sequence := 3 |})
  ∧ routes.get_products Shop.url_for Shop.form_request
      (Product.sequence Shop.two_products + 1)
      {| Product.rows := Product.all Shop.two_products ++ [Product.with_id 3 Shop.hat];
         Product.sequence := 3 |}
    = (Return {| body := Json (Product.serialize (Product.with_id 3 Shop.hat));
                 status_code := 200;
                 response_headers :=
                   {[ "Location" :=
                        Shop.url_for "get_products"
                          (Product.sequence Shop.two_products + 1) ]} |},
       {| Product.rows := Product.all Shop.two_products ++ [Product.with_id 3 Shop.hat];
          Product.sequence := 3 |}).
Proof.
  split; [by vm_compute|]. split; [by vm_compute|].
  apply (X11_post_then_get Shop.url_for Shop.post_hat Shop.form_request
           Shop.two_products
           {| body := Json (Product.serialize (Product.with_id 3 Shop.hat));
              status_code := 201;
              response_headers := {[ "Location" := "/" ]} |});
    by vm_compute.
Defined.

(** X12 on a JSON post of the hat to the store with two products. *)
Lemma X12_post_of_a_serialised_product_witness :
  headers Shop.post_hat !! "Content-Type" = Some "application/json"
  ∧ get_json Shop.post_hat = Product.serialize Shop.hat
  ∧ Product.fully_formed Shop.hat = true
  ∧ routes.create_products Shop.post_hat Shop.two_products
    = (Return {| body := Json (Product.serialize
                                 (Product.with_id
                                    (Product.sequence Shop.two_products + 1) Shop.hat));
                 status_code := 201;
                 response_headers := {[ "Location" := "/" ]} |},
       {| Product.rows :=
            Product.all Shop.two_products
            ++ [Product.with_id (Product.sequence Shop.two_products + 1) Shop.hat];
          Product.sequence := Product.sequence Shop.two_products + 1 |}).
Proof.
  split; [reflexivity|]. split; [reflexivity|]. split; [reflexivity|].
  apply (X12_post_of_a_serialised_product Shop.post_hat Shop.two_products Shop.hat);
    reflexivity.
Defined.

(** X13 on the hat, id 1, put with the description "unknown" and read
    back. *)
Lemma X13_put_then_get_witness :
  routes.update_products Shop.url_for
    (Shop.json_request (Product.serialize Shop.hat_unknown)) 1 Shop.two_products
  = (Return {| body := Json (Product.serialize Shop.hat_unknown);
               status_code := 200;
               response_headers :=
                 {[ "Location" := Shop.url_for "update_products" 1 ]} |},
     {| Product.rows := [Shop.hat_unknown; Product.with_id 2 Shop.bread];
        Product.sequence := 2 |})
  ∧ routes.get_products Shop.url_for Shop.form_request 1
      {| Product.rows := [Shop.hat_unknown; Product.with_id 2 Shop.bread];
         Product.sequence := 2 |}
    = (Return {| body := Json (Product.serialize Shop.hat_unknown);
                 status_code := 200;
                 response_headers :=
                   {[ "Location" := Shop.url_for "get_products" 1 ]} |},
       {| Product.rows := [Shop.hat_unknown; Product.with_id 2 Shop.bread];
          Product.sequence := 2 |}).
Proof.
  split; [by vm_compute|].
  apply (X13_put_then_get Shop.url_for
           (Shop.json_request (Product.serialize Shop.hat_unknown))
           Shop.form_request 1 Shop.two_products
           {| body := Json (Product.serialize Shop.hat_unknown);
              status_code := 200;
              response_headers :=
                {[ "Location" := Shop.url_for "update_products" 1 ]} |}).
  by vm_compute.
Defined.

(** X14 on the hat, id 1, deleted from the store with two products. *)
Lemma X14_delete_then_get_or_put_witness :
  routes.delete_product Shop.url_for Shop.form_request 1 Shop.two_products
  = (Return {| body := Text ""; status_code := 204;
               response_headers :=
                 {[ "Location" := Shop.url_for "update_products" 1 ]} |},
     {| Product.rows := [Product.with_id 2 Shop.bread]; Product.sequence := 2 |})
  ∧ headers Shop.post_hat !! "Content-Type" = Some "application/json"
  ∧ routes.get_products Shop.url_for Shop.form_request 1
      {| Product.rows := [Product.with_id 2 Shop.bread]; Product.sequence := 2 |}
    = (Return {| body := Json (JStr "Product not found"); status_code := 404;
                 response_headers :=
                   {[ "Location" := Shop.url_for "get_products" 1 ]} |},
       {| Product.rows := [Product.with_id 2 Shop.bread]; Product.sequence := 2 |})
  ∧ routes.update_products Shop.url_for Shop.post_hat 1
      {| Product.rows := [Product.with_id 2 Shop.bread]; Product.sequence := 2 |}
    = (Abort 404 None,
       {| Product.rows := [Product.with_id 2 Shop.bread]; Product.sequence := 2 |}).
Proof.
  split; [by vm_compute|]. split; [reflexivity|].
  apply (X14_delete_then_get_or_put Shop.url_for Shop.form_request
           Shop.form_request Shop.post_hat 1 Shop.two_products
           {| body := Text ""; status_code := 204;
              response_headers :=
                {[ "Location" := Shop.url_for "update_products" 1 ]} |});
    [by vm_compute | reflexivity].
Defined.

(** X15 on id 0, as in the not-found tests. *)
Lemma X15_ids_never_handed_out_witness :
  Product.well_formed Shop.two_products = true
  ∧ ¬ (1 ≤ 0 ≤ Product.sequence Shop.two_products)
  ∧ headers Shop.post_hat !! "Content-Type" = Some "application/json"
  ∧ routes.get_products Shop.url_for Shop.form_request 0 Shop.two_products
    = (Return {| body := Json (JStr "Product not found"); status_code := 404;
                 response_headers :=
                   {[ "Location" := Shop.url_for "get_products" 0 ]} |},
       Shop.two_products)
  ∧ routes.update_products Shop.url_for Shop.post_hat 0 Shop.two_products
    = (Abort 404 None, Shop.two_products)
  ∧ routes.delete_product Shop.url_for Shop.form_request 0 Shop.two_products
    = (Abort 404 None, Shop.two_products).
Proof.
  split; [by vm_compute|]. split; [lia|]. split; [reflexivity|].
  apply (X15_ids_never_handed_out Shop.url_for Shop.form_request Shop.post_hat 0
           Shop.two_products); [by vm_compute | lia | reflexivity].
Defined.

(** X16 on the hat, posted to the store with two products and put back with
    the description "unknown". *)
Lemma X16_post_then_put_description_witness :
  Product.well_formed Shop.two_products = true
  ∧ Product.fully_formed Shop.hat = true
  ∧ headers Shop.post_hat !! "Content-Type" = Some "application/json"
  ∧ get_json Shop.post_hat = Product.serialize Shop.hat
  ∧ Product.serialize (Product.with_id (Product.sequence Shop.two_products + 1) Shop.hat)
    = JObj (Shop.fields (Product.serialize (Product.with_id 3 Shop.hat)))
  ∧ ∃ db1 db2,
      routes.create_products Shop.post_hat Shop.two_products
      = (Return {| body := Json (JObj (Shop.fields
                                         (Product.serialize (Product.with_id 3 Shop.hat))));
                   status_code := 201;
                   response_headers := {[ "Location" := "/" ]} |}, db1)
      ∧ routes.update_products Shop.url_for
          (Shop.json_request
             (JObj (<["description" := JStr "unknown"]>
                      (Shop.fields (Product.serialize (Product.with_id 3 Shop.hat))))))
          (Product.sequence Shop.two_products + 1) db1
        = (Return {| body := Json (Product.serialize
                       {| Product.id := Some (Product.sequence Shop.two_products + 1);
                          Product.name := Product.name Shop.hat;
                          Product.description := JStr "unknown";
                          Product.price := Product.price Shop.hat;
                          Product.available := Product.available Shop.hat;
                          Product.category := Product.category Shop.hat |});
                     status_code := 200;
                     response_headers :=
                       {[ "Location" :=
                            Shop.url_for "update_products"
                              (Product.sequence Shop.two_products + 1) ]} |},
           db2)
      ∧ Product.find (Product.sequence Shop.two_products + 1) db2
        = Some {| Product.id := Some (Product.sequence Shop.two_products + 1);
                  Product.name := Product.name Shop.hat;
                  Product.description := JStr "unknown";
                  Product.price := Product.price Shop.hat;
                  Product.available := Product.available Shop.hat;
                  Product.category := Product.category Shop.hat |}.
Proof.
  split; [by vm_compute|]. split; [reflexivity|]. split; [reflexivity|].
  split; [reflexivity|]. split; [reflexivity|].
  apply (X16_post_then_put_description Shop.url_for Shop.post_hat
           (Shop.json_request
              (JObj (<["description" := JStr "unknown"]>
                       (Shop.fields (Product.serialize (Product.with_id 3 Shop.hat))))))
           Shop.two_products Shop.hat
           (Shop.fields (Product.serialize (Product.with_id 3 Shop.hat)))
           "unknown");
    first [by vm_compute | reflexivity].
Defined.

(** X17 on the hat and the bread, made for an empty store. *)
Lemma X17_create_products_helper_witness :
  Forall (λ p, Product.fully_formed p = true) [Shop.hat; Shop.bread]
  ∧ test_routes._create_products [Shop.hat; Shop.bread] Product.empty_store
    = Some (imap (λ k p, Product.with_id (0 + 1 + Z.of_nat k) p)
              [Shop.hat; Shop.bread],
            {| Product.rows :=
                 [] ++ imap (λ k p, Product.with_id (0 + 1 + Z.of_nat k) p)
                         [Shop.hat; Shop.bread];
               Product.sequence := 0 + Z.of_nat (length [Shop.hat; Shop.bread]) |}).
Proof.
  split; [by repeat constructor|].
  apply (X17_create_products_helper [Shop.hat; Shop.bread] Product.empty_store).
  by repeat constructor.
Defined.

(** X19 on the same two products. *)
Lemma X19_count_after_create_products_witness :
  Forall (λ p, Product.fully_formed p = true) [Shop.hat; Shop.bread]
  ∧ [Shop.hat; Shop.bread] ≠ []
  ∧ ∃ products db',
      test_routes._create_products [Shop.hat; Shop.bread] Product.empty_store
      = Some (products, db')
      ∧ length products = length [Shop.hat; Shop.bread]
      ∧ test_routes.get_product_count db'
        = Some (length (Product.all (Product.empty_store
                                       (Decimal:=Z) (Category:=Shop.Category)))
                + length [Shop.hat; Shop.bread])%nat.
Proof.
  split; [by repeat constructor|]. split; [discriminate|].
  apply (X19_count_after_create_products [Shop.hat; Shop.bread] Product.empty_store);
    [by repeat constructor | discriminate].
Defined.

(** X20 on the hat, posted to the store with two products and deleted. *)
Lemma X20_post_then_delete_witness :
  Product.well_formed Shop.two_products = true
  ∧ routes.create_products Shop.post_hat Shop.two_products
    = (Return {| body := Json (Product.serialize (Product.with_id 3 Shop.hat));
                 status_code := 201;
                 response_headers := {[ "Location" := "/" ]} |},
       {| Product.rows := Product.all Shop.two_products ++ [Product.with_id 3 Shop.hat];
          Product.sequence := 3 |})
  ∧ routes.delete_product Shop.url_for Shop.form_request
      (Product.sequence Shop.two_products + 1)
      {| Product.rows := Product.all Shop.two_products ++ [Product.with_id 3 Shop.hat];
         Product.sequence := 3 |}
    = (Return {| body := Text ""; status_code := 204;
                 response_headers :=
                   {[ "Location" :=
                        Shop.url_for "update_products"
                          (Product.sequence Shop.two_products + 1) ]} |},
       {| Product.rows := Product.all Shop.two_products;
          Product.sequence := Product.sequence Shop.two_products + 1 |}).
Proof.
  split; [by vm_compute|]. split; [by vm_compute|].
  apply (X20_post_then_delete Shop.url_for Shop.post_hat Shop.form_request
           Shop.two_products
           {| body := Json (Product.serialize (Product.with_id 3 Shop.hat));
              status_code := 201;
              response_headers := {[ "Location" := "/" ]} |});
    by vm_compute.
Defined.

(** X21 on a body that has a name and nothing else, for the key [price]. *)
Lemma X21_body_without_a_required_key_witness :
  headers (Shop.json_request (JObj {[ "name" := JStr "Hat" ]})) !! "Content-Type"
  = Some "application/json"
  ∧ get_json (Shop.json_request (JObj {[ "name" := JStr "Hat" ]}))
    = JObj {[ "name" := JStr "Hat" ]}
  ∧ "price" ∈ ["name"; "price"; "available"; "category"]
  ∧ ({[ "name" := JStr "Hat" ]} : gmap string json) !! "price" = None
  ∧ (∃ e, routes.create_products
            (Shop.json_request (JObj {[ "name" := JStr "Hat" ]})) Shop.two_products
          = (Uncaught e, Shop.two_products)
          ∧ http_status (Uncaught e) = 400)
  ∧ is_Some (Product.find 1 Shop.two_products)
  ∧ ∃ e, routes.update_products Shop.url_for
           (Shop.json_request (JObj {[ "name" := JStr "Hat" ]})) 1 Shop.two_products
         = (Uncaught e, Shop.two_products)
         ∧ http_status (Uncaught e) = 400.
Proof.
  pose proof (X21_body_without_a_required_key Shop.url_for
                (Shop.json_request (JObj {[ "name" := JStr "Hat" ]})) 1
                Shop.two_products {[ "name" := JStr "Hat" ]} "price"
                eq_refl eq_refl) as Hmissing.
  assert ("price" ∈ ["name"; "price"; "available"; "category"]) as Hkey
    by (apply list_elem_of_further, list_elem_of_here).
  destruct (Hmissing Hkey eq_refl) as [Hpost Hput].
  split; [reflexivity|]. split; [reflexivity|]. split; [exact Hkey|].
  split; [reflexivity|]. split; [exact Hpost|]. split; [by eexists|].
  apply Hput. by eexists.
Defined.
